(** * crypto_balancer: the driver [main.py] and the engine it orchestrates

    The driver ([balancing], [set_up_logger] and the [__main__] block of
    [crypto_balancer/main.py]) is embedded from its source.  The classes it
    imports ([CCXTExchange], [Portfolio], [SimpleBalancer], [Executor]) are
    not in the source tree; the driver is embedded with those classes as
    parameters, and an embedding of them written from the specification
    (module [Engine]) carries the properties that are about them.

    Python's [float] is IEEE-754 binary64: it is embedded as Rocq's primitive
    [float], whose operations are the same correctly rounded ones. *)

From Stdlib Require Import ZArith List String Ascii Floats Bool Lia.
From Stdlib Require QArith.
From stdpp Require Import base option gmap strings list.
Import ListNotations.

Local Open Scope string_scope.
Local Open Scope list_scope.

(** ** Python strings *)

Module Py.

(** [str.isspace] on the ASCII range: TAB, LF, VT, FF, CR, FS, GS, RS, US
    and the space. *)
Definition is_space (c : ascii) : bool :=
  let n := nat_of_ascii c in
  ((9 <=? n)%nat && (n <=? 13)%nat) || ((28 <=? n)%nat && (n <=? 32)%nat).

(** [s.split(sep)] for a one-character separator: empty pieces are kept,
    and the result is never empty. *)
Fixpoint split_on (sep : ascii) (s : string) : list string :=
  match s with
  | EmptyString => [EmptyString]
  | String c rest =>
      if Ascii.eqb c sep then EmptyString :: split_on sep rest
      else match split_on sep rest with
           | w :: ws => String c w :: ws
           | [] => [String c EmptyString]
           end
  end.

(** [s.split()]: pieces are maximal runs of non-space characters. *)
Fixpoint split (s : string) : list string :=
  match s with
  | EmptyString => []
  | String c rest =>
      if is_space c then split rest
      else match rest with
           | EmptyString => [String c EmptyString]
           | String c' _ =>
               if is_space c' then String c EmptyString :: split rest
               else match split rest with
                    | w :: ws => String c w :: ws
                    | [] => [String c EmptyString]
                    end
           end
  end.

(** The exceptions the driver can see.  [ValueError] is the one its
    [try] block catches; [KeyError] comes from subscripting a mapping;
    [OtherError] stands for whatever a collaborator raises (network
    errors, [OSError], ...). *)
Inductive exn : Type :=
| ValueError
| KeyError (key : string)
| OtherError (name : string).

(** A command-line value: [argparse] stores the default as given (an
    [int] for [--max_orders]) and a supplied argument as a [str]. *)
Inductive value : Type :=
| VInt (z : Z)
| VStr (s : string).

(** A [dict] keeps its keys in insertion order; assigning to a present
    key replaces the value where the key already stands. *)
Section Dict.
Context {V : Type}.

Fixpoint dict_set (k : string) (v : V) (d : list (string * V)) : list (string * V) :=
  match d with
  | [] => [(k, v)]
  | (k', v') :: d' =>
      if String.eqb k k' then (k, v) :: d' else (k', v') :: dict_set k v d'
  end.

Fixpoint dict_get (k : string) (d : list (string * V)) : option V :=
  match d with
  | [] => None
  | (k', v') :: d' => if String.eqb k k' then Some v' else dict_get k d'
  end.

Definition dict_of (rows : list (string * V)) : list (string * V) :=
  fold_left (fun d '(k, v) => dict_set k v d) rows [].

Definition keys (d : list (string * V)) : list string := map fst d.
Definition values (d : list (string * V)) : list V := map snd d.
End Dict.

(** The built-in functions the driver applies to its configuration.  Their
    full behaviour belongs to the interpreter (the grammar of numerals, the
    summation algorithm, which changed with version 3.12), so the driver is
    embedded over any implementation of them; [decimal_builtins] and
    [decimal_builtins_312] below are the instances used to evaluate it. *)
Class Builtins : Type := {
  float_of_str : string -> option float;   (* [float(s)], [None] for ValueError *)
  int_of_str : string -> option Z;         (* [int(s)], [None] for ValueError *)
  float_sum : list float -> float          (* [sum(xs)] on floats *)
}.

(** [sum] up to version 3.11: plain additions from 0, left to right. *)
Definition sum_left (xs : list float) : float :=
  fold_left PrimFloat.add xs 0%float.

(** [sum] from version 3.12 on: the same additions, with the rounding
    errors collected in a compensation term that is added at the end if it
    is finite and not zero (Neumaier's variant of Kahan summation). *)
Definition compensate (state : float * float) (x : float) : float * float :=
  let '(s, c) := state in
  let t := PrimFloat.add s x in
  (t, if PrimFloat.leb (PrimFloat.abs x) (PrimFloat.abs s)
      then PrimFloat.add c (PrimFloat.add (PrimFloat.sub s t) x)
      else PrimFloat.add c (PrimFloat.add (PrimFloat.sub x t) s)).

Definition sum_compensated (xs : list float) : float :=
  match xs with
  | [] => 0%float
  | x :: rest =>
      let '(s, c) := fold_left compensate rest (PrimFloat.add 0 x, 0%float) in
      if negb (PrimFloat.is_zero c) && PrimFloat.is_finite c
      then PrimFloat.add s c else s
  end.

Definition digit_of (c : ascii) : option Z :=
  let n := nat_of_ascii c in
  if ((48 <=? n)%nat && (n <=? 57)%nat) then Some (Z.of_nat n - 48)%Z else None.

Fixpoint digits_acc (acc : Z) (s : string) : option Z :=
  match s with
  | EmptyString => Some acc
  | String c rest =>
      match digit_of c with
      | Some d => digits_acc (10 * acc + d)%Z rest
      | None => None
      end
  end.

(** An optional sign followed by decimal digits with at most one point. *)
Definition unsigned_decimal (s : string) : option (Z * Z) :=
  match split_on "."%char s with
  | [i] => if (0 <? String.length i)%nat
           then m ← digits_acc 0 i; Some (m, 0%Z) else None
  | [i; f] => if (0 <? String.length i + String.length f)%nat
              then m ← digits_acc 0 (i ++ f); Some (m, Z.of_nat (String.length f))
              else None
  | _ => None
  end.

Definition signed_decimal (s : string) : option (bool * (Z * Z)) :=
  match s with
  | String "-"%char rest => d ← unsigned_decimal rest; Some (true, d)
  | String "+"%char rest => d ← unsigned_decimal rest; Some (false, d)
  | _ => d ← unsigned_decimal s; Some (false, d)
  end.

Definition float_of_Z (z : Z) : float := PrimFloat.of_uint63 (Uint63.of_Z z).

(** The binary64 nearest to [m / 10^k]: both operands are exact below
    [2^53], and the division is correctly rounded, which is what [float]
    returns for such a numeral. *)
Definition float_of_decimal (neg : bool) (m k : Z) : option float :=
  if ((m <? 2 ^ 53) && (10 ^ k <? 2 ^ 53))%Z
  then let x := PrimFloat.div (float_of_Z m) (float_of_Z (10 ^ k)) in
       Some (if neg then PrimFloat.opp x else x)
  else None.

Definition decimal_float (s : string) : option float :=
  match signed_decimal s with
  | Some (neg, (m, k)) => float_of_decimal neg m k
  | None => None
  end.

Definition decimal_int (s : string) : option Z :=
  match signed_decimal s with
  | Some (neg, (m, k)) =>
      if existsb (Ascii.eqb "."%char) (list_ascii_of_string s) then None
      else Some (if neg then Z.opp m else m)
  | None => None
  end.

(** Agrees with the interpreter on plain decimal numerals (up to 15
    significant digits for [float]); other spellings the interpreter
    accepts (exponents, [inf], [nan], underscores) are not recognised. *)
Definition decimal_builtins : Builtins :=
  {| float_of_str := decimal_float; int_of_str := decimal_int;
     float_sum := sum_left |}.

Definition decimal_builtins_312 : Builtins :=
  {| float_of_str := decimal_float; int_of_str := decimal_int;
     float_sum := sum_compensated |}.

End Py.
Import Py.

(** ** Numbers

    The engine only needs ordered-field operations and a square root.  It is
    written once over this interface; [binary64] is the instance the driver
    supplies, since every number it hands over comes out of [float(...)]. *)
Class Number (A : Type) : Type := {
  nofZ : Z -> A;
  nadd : A -> A -> A;
  nsub : A -> A -> A;
  nmul : A -> A -> A;
  ndiv : A -> A -> A;
  nsqrt : A -> A;
  neqb : A -> A -> bool;
  nltb : A -> A -> bool
}.

#[export] Instance binary64 : Number float := {|
  nofZ := float_of_Z;
  nadd := PrimFloat.add;
  nsub := PrimFloat.sub;
  nmul := PrimFloat.mul;
  ndiv := PrimFloat.div;
  nsqrt := PrimFloat.sqrt;
  neqb := PrimFloat.eqb;
  nltb := PrimFloat.ltb
|}.

Section Numbers.
Context {A : Type} `{Number A}.

Definition nzero : A := nofZ 0.
Definition none_ : A := nofZ 1.
Definition nhundred : A := nofZ 100.
Definition nabs (x : A) : A := if nltb x nzero then nsub nzero x else x.
Definition nmin (x y : A) : A := if nltb y x then y else x.
Definition nmax (x y : A) : A := if nltb x y then y else x.
Definition nsum (l : list A) : A := fold_left nadd l nzero.
End Numbers.

(** ** Data model and effects *)

Inductive side : Type := BUY | SELL.

(** The pricing modes, named as the strings of [--mode]. *)
Inductive pricing_mode : Type := mid | passive | cheap.

Definition mode_of_string (s : string) : option pricing_mode :=
  if String.eqb s "mid" then Some mid
  else if String.eqb s "passive" then Some passive
  else if String.eqb s "cheap" then Some cheap
  else None.

Inductive level : Type := INFO | WARNING | ERROR.

(** What the venue answers to one submission (interface of the adapter). *)
Inductive submit_reply : Type :=
| Filled
| Rejected (reason : string)
| SubmitFailed.

(** The adapter object: the driver reads [exchange.name] and nothing else. *)
Record Exchange : Type := { exchange_name : string }.

(** An open order as [cancel_orders] yields it: the driver reads
    [order['symbol']] and [order['id']]. *)
Record OpenOrder : Type := { oo_symbol : string; oo_id : string }.

Section Model.
Context {A : Type}.

Record Order : Type := {
  asset : string;
  order_side : side;
  amount : A;
  limit_price : A;
  order_mode : pricing_mode
}.

(** The attributes of a [Portfolio] object.  The first seven are the ones
    the driver reads; the last three are what the specification says a
    portfolio owns besides its holdings and quote currency. *)
Record Portfolio : Type := {
  balances : list (string * A);
  balances_pct : list (string * A);
  valuation_quote : A;
  quote_currency : string;
  balance_rms_error : A;
  balance_max_error : A;
  needs_balancing : bool;
  targets : list (string * A);
  threshold : A;
  rates : list (string * A)
}.

(** The dictionary [Executor.run] returns. *)
Record ExecutionResult : Type := {
  initial_portfolio : Portfolio;
  proposed_portfolio : option Portfolio;
  total_fee : A;
  success : list Order;
  errors : list (Order * string);
  orders : list Order
}.

(** One constructor per logging call of [balancing], with the values it
    formats. *)
Inductive msg : Type :=
| TargetsFormatInvalid
| TotalTargetNot100 (total_target : A)
| Connected (name : string)
| CancellingOpenOrders
| CancelledOrder (symbol id : string)
| CurrentPortfolio
| BalanceLine (cur : string) (bal pct tgt : A)
| Blank
| TotalValue (valuation : A) (quote : string)
| RmsError (rms thr : A)
| MaxError (mx thr : A)
| NoBalancingNeeded
| BalancingNeeded (forced : bool)
| ProposedPortfolio
| NoBetterPortfolio
| TotalFees (fee : A) (quote : string)
| OrdersHeading
| Submitted (o : Order)
| Failed (o : Order * string)
| Proposed (o : Order).

(** Calls that leave the process.  [OpenLog] is [set_up_logger] (it
    creates a directory and opens a file); the others reach the venue. *)
Inductive call : Type -> Type :=
| OpenLog (log_dir portfolio_name : string) : call unit
| NewExchange (exchange : string) (assets : list string)
              (api_key api_secret : string) : call Exchange
| CancelOrders (ex : Exchange) : call (list OpenOrder)
| GetBalances (ex : Exchange) : call (list (string * A))
| GetPrice (ex : Exchange) (a quote : string) : call A
| SubmitOrder (ex : Exchange) (o : Order) : call submit_reply.

Inductive event : Type :=
| EvLog (l : level) (m : msg)
| EvCall {X : Type} (c : call X).

(** A Python computation: it returns, lets an exception escape, or
    calls [sys.exit]; on the way it writes log records (which cannot
    fail: [logging] swallows handler errors) and makes calls. *)
Inductive prog (R : Type) : Type :=
| Ret (r : R)
| Raise (e : exn)
| Exit (code : Z)
| Emit (l : level) (m : msg) (k : prog R)
| Call {X : Type} (c : call X) (k : X -> prog R).

Arguments Ret {R} r.
Arguments Raise {R} e.
Arguments Exit {R} code.
Arguments Emit {R} l m k.
Arguments Call {R X} c k.

Fixpoint bind {R S : Type} (p : prog R) (f : R -> prog S) : prog S :=
  match p with
  | Ret r => f r
  | Raise e => Raise e
  | Exit c => Exit c
  | Emit l m k => Emit l m (bind k f)
  | Call c k => Call c (fun x => bind (k x) f)
  end.

Definition perform {X : Type} (c : call X) : prog X := Call c Ret.
Definition log (l : level) (m : msg) : prog unit := Emit l m (Ret tt).
Definition lift {R : Type} (r : exn + R) : prog R :=
  match r with inl e => Raise e | inr x => Ret x end.

Inductive outcome (R : Type) : Type :=
| Returned (r : R)
| Raised (e : exn)
| Exited (code : Z).

Arguments Returned {R} r.
Arguments Raised {R} e.
Arguments Exited {R} code.

(** The world outside: given what has happened so far, every call is
    answered with a value or with an exception. *)
Definition env : Type := list event -> forall X : Type, call X -> exn + X.

(** [run w p h] is the history after [p] ran in world [w] from history
    [h], with how [p] ended. *)
Fixpoint run {R : Type} (w : env) (p : prog R) (h : list event)
  : list event * outcome R :=
  match p with
  | Ret r => (h, Returned r)
  | Raise e => (h, Raised e)
  | Exit c => (h, Exited c)
  | Emit l m k => run w k (h ++ [EvLog l m])
  | Call c k =>
      match w h _ c with
      | inl e => (h ++ [EvCall c], Raised e)
      | inr x => run w (k x) (h ++ [EvCall c])
      end
  end.

Definition is_venue_call {X : Type} (c : call X) : bool :=
  match c with
  | OpenLog _ _ => false
  | _ => true
  end.

Definition is_venue (ev : event) : bool :=
  match ev with
  | EvLog _ _ => false
  | EvCall c => is_venue_call c
  end.

Definition is_submission (ev : event) : bool :=
  match ev with
  | EvCall (SubmitOrder _ _) => true
  | _ => false
  end.

Definition is_warning (ev : event) : bool :=
  match ev with
  | EvLog WARNING _ => true
  | _ => false
  end.

(** Balances and prices are what the valuation asks the venue for. *)
Definition is_valuation (ev : event) : bool :=
  match ev with
  | EvCall (GetBalances _) => true
  | EvCall (GetPrice _ _ _) => true
  | _ => false
  end.

(** [never bad p]: no path through [p] writes or calls anything [bad]. *)
Fixpoint never {R : Type} (bad : event -> bool) (p : prog R) : Prop :=
  match p with
  | Ret _ | Raise _ | Exit _ => True
  | Emit l m k => bad (EvLog l m) = false /\ never bad k
  | Call c k => bad (EvCall c) = false /\ forall x, never bad (k x)
  end.
End Model.

Arguments Order : clear implicits.
Arguments Portfolio : clear implicits.
Arguments ExecutionResult : clear implicits.
Arguments msg : clear implicits.
Arguments call : clear implicits.
Arguments event : clear implicits.
Arguments prog : clear implicits.
Arguments env : clear implicits.
Arguments Ret {A R} r.
Arguments Raise {A R} e.
Arguments Exit {A R} code.
Arguments Emit {A R} l m k.
Arguments Call {A R X} c k.
Arguments Returned {R} r.
Arguments Raised {R} e.
Arguments Exited {R} code.

(** Sequencing is written with the usual [x ← p; q] and [p;; q]. *)
#[export] Instance prog_ret {A : Type} : MRet (prog A) := fun R r => Ret r.
#[export] Instance prog_bind {A : Type} : MBind (prog A) := fun R S f p => bind p f.

(** ** The engine, after the specification

    [portfolio.py], [simple_balancer.py], [executor.py] and
    [ccxt_exchange.py] are absent from the source tree; this module follows
    sections 4.1 to 4.4 and 6 of the specification. *)

Module Engine.
Section Engine.
Context {A : Type} `{Number A}.

(** Modelled from the spec: the pricing policy a mode resolves to
    (4.3, step 5), a capability of the absent venue adapter. *)
Variable pricing : pricing_mode -> side -> string -> A.

(** Modelled from the spec: the venue's fee schedule (section 6,
    [GetFeeSchedule]), a capability of the absent venue adapter. *)
Variable fee_schedule : string -> side -> A -> A -> pricing_mode -> A.

Definition lookup0 (a : string) (d : list (string * A)) : A :=
  default nzero (dict_get a d).

(** Modelled from the spec: the price lookup of [portfolio.py] (4.1): the
    quote currency is worth 1 of itself. *)
Definition price_in (prices : list (string * A)) (quote a : string) : exn + A :=
  if String.eqb a quote then inr none_
  else match dict_get a prices with
       | Some p => inr p
       | None => inl (OtherError "PriceUnavailable")
       end.

(** Modelled from the spec: per-asset valuation of [portfolio.py] (4.1),
    amount times price; one missing price aborts the whole valuation. *)
Fixpoint valuations (prices : list (string * A)) (quote : string)
    (holdings : list (string * A)) : exn + list (string * A) :=
  match holdings with
  | [] => inr []
  | (a, amt) :: rest =>
      match price_in prices quote a with
      | inl e => inl e
      | inr p =>
          match valuations prices quote rest with
          | inl e => inl e
          | inr vs => inr ((a, nmul amt p) :: vs)
          end
      end
  end.

(** Modelled from the spec: percentage share of [portfolio.py] (4.1),
    0 when the total valuation is 0. *)
Definition share (total v : A) : A :=
  if neqb total nzero then nzero else ndiv (nmul nhundred v) total.

Definition asset_union (held targeted : list string) : list string :=
  held ++ filter (fun a => negb (existsb (String.eqb a) held)) targeted.

(** Modelled from the spec: the deviations of [portfolio.py] (4.2), over
    the union of held and targeted assets, actual minus target. *)
Definition deviations (pcts tgts : list (string * A)) : list (string * A) :=
  map (fun a => (a, nsub (lookup0 a pcts) (lookup0 a tgts)))
      (asset_union (keys pcts) (keys tgts)).

(** Modelled from the spec: RMS deviation of [portfolio.py] (4.2). *)
Definition rms (devs : list A) : A :=
  match devs with
  | [] => nzero
  | _ => nsqrt (ndiv (nsum (map (fun d => nmul d d) devs))
                     (nofZ (Z.of_nat (length devs))))
  end.

(** Modelled from the spec: max absolute deviation of [portfolio.py] (4.2). *)
Definition max_abs (devs : list A) : A :=
  fold_left nmax (map nabs devs) nzero.

(** Modelled from the spec: [Value] of [portfolio.py] (4.1) together with
    the derived metrics of 4.2; [needs_balancing] is max deviation
    strictly above the threshold. *)
Definition Value (holdings prices : list (string * A)) (quote : string)
    (tgts : list (string * A)) (thr : A) : exn + Portfolio A :=
  match valuations prices quote holdings with
  | inl e => inl e
  | inr vals =>
      let total := nsum (values vals) in
      let pcts := map (fun '(a, v) => (a, share total v)) vals in
      let devs := values (deviations pcts tgts) in
      inr {| balances := holdings;
             balances_pct := pcts;
             valuation_quote := total;
             quote_currency := quote;
             balance_rms_error := rms devs;
             balance_max_error := max_abs devs;
             needs_balancing := nltb thr (max_abs devs);
             targets := tgts;
             threshold := thr;
             rates := prices |}
  end.

(** Modelled from the spec: ranking of [simple_balancer.py] (4.3, steps 2
    and 3): larger magnitude first, ties by symbol order. *)
Definition outranks (x y : string * A) : bool :=
  nltb (snd y) (snd x) || (neqb (snd x) (snd y) && String.ltb (fst x) (fst y)).

Fixpoint foremost (l : list (string * A)) : option (string * A) :=
  match l with
  | [] => None
  | x :: rest =>
      match foremost rest with
      | None => Some x
      | Some y => if outranks y x then Some y else Some x
      end
  end.

Definition most_over (devs : list (string * A)) : option (string * A) :=
  foremost (filter (fun d => nltb nzero (snd d)) devs).

Definition most_under (devs : list (string * A)) : option (string * A) :=
  foremost (map (fun d => (fst d, nsub nzero (snd d)))
                (filter (fun d => nltb (snd d) nzero) devs)).

Definition credit (a : string) (x : A) (h : list (string * A)) : list (string * A) :=
  dict_set a (nadd (lookup0 a h) x) h.

Definition leg (m : pricing_mode) (quote a : string) (s : side) (amt : A) : list (Order A) :=
  if String.eqb a quote then []
  else [ {| asset := a; order_side := s; amount := amt;
            limit_price := pricing m s a; order_mode := m |} ].

(** Modelled from the spec: one pairing of [simple_balancer.py] (4.3,
    step 3 and the clamping edge case): the most over-allocated asset is
    sold for the most under-allocated one, for the smaller of the two
    quote amounts that bring either to target, the sell clamped to what
    is held.  The quote currency itself needs no order.  The result is
    the orders (sell first), the holdings after them, and whether the
    sell was clamped. *)
Definition pairing (m : pricing_mode) (p : Portfolio A)
  : exn + option (list (Order A) * list (string * A) * bool) :=
  let devs := deviations (balances_pct p) (targets p) in
  match most_over devs, most_under devs with
  | Some (s, ds), Some (b, db) =>
      let quote := quote_currency p in
      let total := valuation_quote p in
      let q0 := nmin (ndiv (nmul ds total) nhundred) (ndiv (nmul db total) nhundred) in
      match price_in (rates p) quote s, price_in (rates p) quote b with
      | inr rs, inr rb =>
          let held := lookup0 s (balances p) in
          let clamp := nltb held (ndiv q0 rs) in
          let amt_s := if clamp then held else ndiv q0 rs in
          let q := if clamp then nmul held rs else q0 in
          let amt_b := ndiv q rb in
          inr (Some (leg m quote s SELL amt_s ++ leg m quote b BUY amt_b,
                     credit b amt_b (credit s (nsub nzero amt_s) (balances p)),
                     clamp))
      | inl e, _ => inl e
      | _, inl e => inl e
      end
  | _, _ => inr None
  end.

(** Modelled from the spec: one round of the greedy loop of
    [simple_balancer.py] (4.3, step 4): deviations are recomputed on the
    current holdings; the round yields nothing when all deviations are
    within the threshold (unless forced), when there is nothing left to
    pair, or when the pairing does not reduce the max deviation. *)
Definition improving_pairing (force : bool) (m : pricing_mode)
    (prices : list (string * A)) (quote : string) (tgts : list (string * A))
    (thr : A) (h : list (string * A))
  : exn + option (list (Order A) * list (string * A) * bool) :=
  match Value h prices quote tgts thr with
  | inl e => inl e
  | inr p =>
      if negb (needs_balancing p) && negb force then inr None
      else
        match pairing m p with
        | inl e => inl e
        | inr None => inr None
        | inr (Some (legs, h', clamp)) =>
            match Value h' prices quote tgts thr with
            | inl e => inl e
            | inr p' =>
                if nltb (balance_max_error p') (balance_max_error p)
                then inr (Some (legs, h', clamp))
                else inr None
            end
        end
  end.

(** Modelled from the spec: the greedy loop of [simple_balancer.py] (4.3,
    step 4).  [slots] is the number of orders that may still be
    proposed: the loop stops when no slot is left, when a round yields
    nothing, or when the pairing needs more orders than there are slots.
    The result is the orders, the simulated holdings after them, and
    whether some sell was clamped. *)
Fixpoint plan_loop (slots : nat) (force : bool) (m : pricing_mode)
    (prices : list (string * A)) (quote : string) (tgts : list (string * A))
    (thr : A) (h : list (string * A))
  : exn + (list (Order A) * list (string * A) * bool) :=
  match slots with
  | O => inr ([], h, false)
  | S slots1 =>
      match improving_pairing force m prices quote tgts thr h with
      | inl e => inl e
      | inr (Some ([o], h', clamp)) =>
          match plan_loop slots1 force m prices quote tgts thr h' with
          | inl e => inl e
          | inr (os, hf, part) => inr (o :: os, hf, clamp || part)
          end
      | inr (Some ([o1; o2], h', clamp)) =>
          match slots1 with
          | O => inr ([], h, false)
          | S slots2 =>
              match plan_loop slots2 force m prices quote tgts thr h' with
              | inl e => inl e
              | inr (os, hf, part) => inr (o1 :: o2 :: os, hf, clamp || part)
              end
          end
      | inr _ => inr ([], h, false)
      end
  end.

Record TradePlan : Type := {
  plan_proposed : option (Portfolio A);
  plan_orders : list (Order A);
  plan_total_fee : A;
  plan_partial : bool
}.

Definition order_fee (o : Order A) : A :=
  fee_schedule (asset o) (order_side o) (amount o) (limit_price o) (order_mode o).

(** Modelled from the spec: [Plan] of [simple_balancer.py] (4.3, steps 6
    and 7): the fee is the sum over the orders, the proposed portfolio is
    the simulated holdings less the fees, valued at the planning prices;
    no improving pairing means no proposed portfolio and no order. *)
Definition Plan (initial : Portfolio A) (tgts : list (string * A))
    (maxOrders : nat) (m : pricing_mode) (force : bool) : exn + TradePlan :=
  let quote := quote_currency initial in
  match plan_loop maxOrders force m (rates initial) quote tgts
                  (threshold initial) (balances initial) with
  | inl e => inl e
  | inr ([], _, _) =>
      inr {| plan_proposed := None; plan_orders := [];
             plan_total_fee := nzero; plan_partial := false |}
  | inr (os, h, part) =>
      let fee := nsum (map order_fee os) in
      match Value (credit quote (nsub nzero fee) h) (rates initial) quote tgts
                  (threshold initial) with
      | inl e => inl e
      | inr p' =>
          inr {| plan_proposed := Some p'; plan_orders := os;
                 plan_total_fee := fee; plan_partial := part |}
      end
  end.

(** Modelled from the spec: the retry bound of [executor.py] (4.4). *)
Definition max_attempts : nat := 3.

(** Modelled from the spec: one order's state machine in [executor.py]
    (4.4): a transient error is retried while attempts remain, a fill or
    a rejection is terminal.  (The backoff delay between attempts is not
    represented.) *)
Fixpoint submit (ex : Exchange) (o : Order A) (attempts : nat) : prog A submit_reply :=
  match attempts with
  | O => Ret SubmitFailed
  | S n =>
      Call (SubmitOrder ex o) (fun r =>
        match r with
        | SubmitFailed => submit ex o n
        | _ => Ret r
        end)
  end.

Definition is_sell (o : Order A) : bool :=
  match order_side o with SELL => true | BUY => false end.

(** Modelled from the spec: live submission in [executor.py] (4.4): one
    order at a time in plan order; a buy whose paired sell (the order
    just before it) ended in error is skipped as a dependency failure. *)
Fixpoint submit_all (ex : Exchange) (os : list (Order A)) (sell_failed : bool)
  : prog A (list (Order A) * list (Order A * string)) :=
  match os with
  | [] => Ret ([], [])
  | o :: rest =>
      if negb (is_sell o) && sell_failed then
        '(ok, ko) ← submit_all ex rest false;
        Ret (ok, (o, "SUBMIT_ERROR: dependency failed") :: ko)
      else
        r ← submit ex o max_attempts;
        match r with
        | Filled =>
            '(ok, ko) ← submit_all ex rest false;
            Ret (o :: ok, ko)
        | Rejected reason =>
            '(ok, ko) ← submit_all ex rest (is_sell o);
            Ret (ok, (o, String.append "REJECTED: " reason) :: ko)
        | SubmitFailed =>
            '(ok, ko) ← submit_all ex rest (is_sell o);
            Ret (ok, (o, "SUBMIT_ERROR") :: ko)
        end
  end.

(** Modelled from the spec: the result [executor.py] returns for a
    portfolio it leaves alone (4.4): no proposed portfolio, no orders. *)
Definition untouched (initial : Portfolio A) : ExecutionResult A :=
  {| initial_portfolio := initial; proposed_portfolio := None;
     total_fee := nzero; success := []; errors := []; orders := [] |}.

(** Modelled from the spec: [Execute] of [executor.py] (4.4).  A
    portfolio within its threshold is left untouched unless forced;
    otherwise a plan is requested, and submitted only when [trade] is
    set. *)
Definition Execute (initial : Portfolio A) (ex : Exchange)
    (force trade : bool) (maxOrders : nat) (m : pricing_mode)
  : prog A (ExecutionResult A) :=
  if negb (needs_balancing initial) && negb force then Ret (untouched initial)
  else
    pl ← lift (Plan initial (targets initial) maxOrders m force);
    if trade then
      '(ok, ko) ← submit_all ex (plan_orders pl) false;
      Ret {| initial_portfolio := initial;
             proposed_portfolio := plan_proposed pl;
             total_fee := plan_total_fee pl;
             success := ok; errors := ko; orders := plan_orders pl |}
    else
      Ret {| initial_portfolio := initial;
             proposed_portfolio := plan_proposed pl;
             total_fee := plan_total_fee pl;
             success := []; errors := []; orders := plan_orders pl |}.

Fixpoint fetch_prices (ex : Exchange) (quote : string) (assets : list string)
  : prog A (list (string * A)) :=
  match assets with
  | [] => Ret []
  | a :: rest =>
      if String.eqb a quote then fetch_prices ex quote rest
      else
        p ← perform (GetPrice ex a quote);
        ps ← fetch_prices ex quote rest;
        Ret ((a, p) :: ps)
  end.

(** Modelled from the spec: [Portfolio.make_portfolio] of [portfolio.py]:
    balances and prices come from the venue adapter (section 6), then
    [Value]. *)
Definition make_portfolio (tgts : list (string * A)) (ex : Exchange)
    (thr : A) (valuebase : string) : prog A (Portfolio A) :=
  bals ← perform (GetBalances ex);
  prices ← fetch_prices ex valuebase (asset_union (keys bals) (keys tgts));
  lift (Value bals prices valuebase tgts thr).

(** Modelled from the spec: [Executor(...).run(...)] of [executor.py] as
    the driver calls it: the mode string is resolved to the enumeration,
    and the cap is a count (a negative number leaves no slot). *)
Definition executor_run (p : Portfolio A) (ex : Exchange) (force trade : bool)
    (max_orders : Z) (mode_name : string) : prog A (ExecutionResult A) :=
  match mode_of_string mode_name with
  | Some m => Execute p ex force trade (Z.to_nat max_orders) m
  | None => Raise ValueError
  end.
End Engine.
End Engine.

(** ** The driver: [crypto_balancer/main.py] *)

Module Main.

Local Open Scope float_scope.

(** A section of [portfolios.ini] as the driver sees it: option names to
    their text (defaults already merged in, as a [SectionProxy] does). *)
Abbreviation section := (gmap string string).

Definition log_each {T : Type} (f : T -> msg float) (l : list T) : prog float unit :=
  foldr (fun x k => Emit INFO (f x) k) (Ret tt) l.

(** [d[k]] on a [dict]. *)
Definition getitem {V : Type} (d : list (string * V)) (k : string) : prog float V :=
  match dict_get k d with
  | Some v => Ret v
  | None => Raise (KeyError k)
  end.

(** [portfolio_config[k]]. *)
Definition subscript (portfolio_config : section) (k : string) : prog float string :=
  match portfolio_config !! k with
  | Some v => Ret v
  | None => Raise (KeyError k)
  end.

(** Lines 126-132: the directory and the log file are created. *)
Definition set_up_logger (log_dir portfolio_name : string) : prog float unit :=
  perform (OpenLog log_dir portfolio_name).

(** Line 35: [portfolio_config.get('valuebase') or 'USDT']; a string is
    false when it is empty. *)
Definition truthy (s : string) : bool := negb (String.length s =? 0)%nat.

Definition valuebase_of (portfolio_config : section) : string :=
  match portfolio_config !! "valuebase" with
  | Some v => if truthy v then v else "USDT"
  | None => "USDT"
  end.

Fixpoint log_cancelled (cancelled : list OpenOrder) : prog float unit :=
  match cancelled with
  | [] => Ret tt
  | order :: rest =>
      Emit INFO (CancelledOrder (oo_symbol order) (oo_id order)) (log_cancelled rest)
  end.

(** Lines 55-59 and 92-97: one line per currency of [portfolio.balances];
    each of the three subscripts can raise [KeyError]. *)
Fixpoint log_balances (targets : list (string * float)) (portfolio : Portfolio float)
    (curs : list string) : prog float unit :=
  match curs with
  | [] => Ret tt
  | cur :: rest =>
      bal ← getitem (balances portfolio) cur;
      pct ← getitem (balances_pct portfolio) cur;
      tgt ← getitem targets cur;
      log INFO (BalanceLine cur bal pct tgt);;
      log_balances targets portfolio rest
  end.

(** Lines 115-123. *)
Definition report_orders (trade : bool) (res : ExecutionResult float) : prog float unit :=
  if trade then
    log_each Submitted (success res);;
    log_each Failed (errors res)
  else
    log_each Proposed (orders res).

(** Lines 71-123. *)
Definition report (targets : list (string * float)) (threshold : float)
    (portfolio : Portfolio float) (res : ExecutionResult float)
    (trade force : bool) : prog float unit :=
  log INFO (RmsError (balance_rms_error (initial_portfolio res)) threshold);;
  log INFO (MaxError (balance_max_error (initial_portfolio res)) threshold);;
  if negb (needs_balancing portfolio) && negb force then
    log INFO NoBalancingNeeded
  else
    log INFO (BalancingNeeded force);;
    log INFO ProposedPortfolio;;
    match proposed_portfolio res with
    | None => log INFO NoBetterPortfolio
    | Some proposed =>
        log_balances targets proposed (keys (balances proposed));;
        log INFO (TotalValue (valuation_quote proposed) (quote_currency proposed));;
        log INFO (RmsError (balance_rms_error proposed) threshold);;
        log INFO (MaxError (balance_max_error proposed) threshold);;
        log INFO (TotalFees (total_fee res) (quote_currency proposed));;
        log INFO Blank;;
        log INFO OrdersHeading;;
        report_orders trade res
    end.

Section Driver.
Context `{Builtins}.

(** [Portfolio.make_portfolio(targets, exchange, threshold, valuebase)]. *)
Variable make_portfolio :
  list (string * float) -> Exchange -> float -> string -> prog float (Portfolio float).

(** [Executor(portfolio, exchange, SimpleBalancer()).run(force=, trade=,
    max_orders=, mode=)]. *)
Variable executor_run :
  Portfolio float -> Exchange -> bool -> bool -> Z -> string ->
  prog float (ExecutionResult float).

(** Line 29: [sum(targets.values())]. *)
Definition total_target (targets : list (string * float)) : float :=
  float_sum (values targets).

(** Lines 23-24: every line must split into exactly two words, the second
    accepted by [float]; anything else is the [ValueError] of the [try]
    block, rendered as [None]. *)
Definition parse_row (row : list string) : option (string * float) :=
  match row with
  | [a; b] => f ← float_of_str b; Some (a, f)
  | _ => None
  end.

Definition parse_targets (raw : string) : option (list (string * float)) :=
  rows ← mapM parse_row (map split (split_on "010"%char raw));
  Some (dict_of rows).

Definition to_float (s : string) : prog float float :=
  match float_of_str s with
  | Some x => Ret x
  | None => Raise ValueError
  end.

Definition to_int (v : value) : prog float Z :=
  match v with
  | VInt z => Ret z
  | VStr s => match int_of_str s with
              | Some z => Ret z
              | None => Raise ValueError
              end
  end.

(** Lines 54-123: what follows the valuation. *)
Definition execute_and_report (targets : list (string * float)) (threshold : float)
    (portfolio : Portfolio float) (exchange : Exchange) (trade force : bool)
    (max_orders : Z) (mode : string) : prog float unit :=
  log INFO CurrentPortfolio;;
  log_balances targets portfolio (keys (balances portfolio));;
  log INFO Blank;;
  log INFO (TotalValue (valuation_quote portfolio) (quote_currency portfolio));;
  res ← executor_run portfolio exchange force trade max_orders mode;
  report targets threshold portfolio res trade force.

(** Lines 52-123. *)
Definition value_and_execute (targets : list (string * float)) (exchange : Exchange)
    (threshold : float) (max_orders : Z) (valuebase : string)
    (trade force : bool) (mode : string) : prog float unit :=
  portfolio ← make_portfolio targets exchange threshold valuebase;
  execute_and_report targets threshold portfolio exchange trade force max_orders mode.

(** Lines 49-123. *)
Definition rebalance (portfolio_config : section) (targets : list (string * float))
    (valuebase : string) (exchange : Exchange) (trade force : bool)
    (max_orders : value) (mode : string) : prog float unit :=
  threshold ← subscript portfolio_config "threshold" ≫= to_float;
  max_orders ← to_int max_orders;
  value_and_execute targets exchange threshold max_orders valuebase trade force mode.

(** Lines 44-47. *)
Definition cancel_open_orders (exchange : Exchange) : prog float unit :=
  log INFO CancellingOpenOrders;;
  cancelled ← perform (CancelOrders exchange);
  log_cancelled cancelled.

(** Lines 35-123: what follows the validation of the targets. *)
Definition connect_and_rebalance (portfolio_config : section)
    (targets : list (string * float)) (trade force : bool) (max_orders : value)
    (cancel : bool) (mode : string) : prog float unit :=
  let valuebase := valuebase_of portfolio_config in
  name ← subscript portfolio_config "exchange";
  api_key ← subscript portfolio_config "api_key";
  api_secret ← subscript portfolio_config "api_secret";
  exchange ← perform (NewExchange name (keys targets) api_key api_secret);
  log INFO (Connected (exchange_name exchange));;
  (if cancel then cancel_open_orders exchange else Ret tt);;
  rebalance portfolio_config targets valuebase exchange trade force max_orders mode.

(** Lines 19-123. *)
Definition balancing (portfolio_config : section) (portfolio_name : string)
    (trade force : bool) (max_orders : value) (cancel : bool)
    (log_dir mode : string) : prog float unit :=
  set_up_logger log_dir portfolio_name;;
  raw ← subscript portfolio_config "targets";
  match parse_targets raw with
  | None =>
      log ERROR TargetsFormatInvalid;;
      Exit 1
  | Some targets =>
      if negb (total_target targets =? 100) then
        log ERROR (TotalTargetNot100 (total_target targets))
      else
        connect_and_rebalance portfolio_config targets trade force max_orders
                              cancel mode
  end.
End Driver.

(** *** The [__main__] block *)

(** What [parse_args] returns. *)
Record Args : Type := {
  trade : bool;
  force : bool;
  max_orders : value;
  cancel : bool;
  log_dir : string;
  mode : string;
  portfolio : list string
}.

(** The options as given on the command line; [None] where an option is
    not given. *)
Record CommandLine : Type := {
  opt_trade : bool;
  opt_force : bool;
  opt_max_orders : option string;
  opt_cancel : bool;
  opt_log_dir : option string;
  opt_mode : option string;
  opt_portfolio : option (list string)
}.


Definition mode_choices : list string := ["mid"; "passive"; "cheap"].

Definition one_of (choices : list string) (s : string) : bool :=
  existsb (String.eqb s) choices.

(** Lines 139-158.  [None] is the parser's error exit (status 2): a value
    outside [choices], or [--portfolio] with no value ([nargs='+']). *)
Definition parse_args (sections : list string) (cl : CommandLine) : option Args :=
  m ← match opt_mode cl with
      | None => Some "mid"
      | Some m => if one_of mode_choices m then Some m else None
      end;
  ps ← match opt_portfolio cl with
       | None => Some sections
       | Some [] => None
       | Some ps => if forallb (one_of sections) ps then Some ps else None
       end;
  Some {| trade := opt_trade cl;
          force := opt_force cl;
          max_orders := match opt_max_orders cl with
                        | None => VInt 5
                        | Some s => VStr s
                        end;
          cancel := opt_cancel cl;
          log_dir := default "logs" (opt_log_dir cl);
          mode := m;
          portfolio := ps |}.

(** [portfolios.ini]: the sections in file order. *)
Abbreviation config := (list (string * section)).

Definition sections (p_config : config) : list string := keys p_config.

Record Task : Type := {
  task_config : section;
  task_name : string;
  task_trade : bool;
  task_force : bool;
  task_max_orders : value;
  task_cancel : bool;
  task_log_dir : string;
  task_mode : string
}.

(** Lines 162-170: the zipped argument tuples. *)
Definition tasks (p_config : config) (args : Args) : list Task :=
  map (fun '(proxy, p) =>
         {| task_config := proxy; task_name := p;
            task_trade := trade args; task_force := force args;
            task_max_orders := max_orders args; task_cancel := cancel args;
            task_log_dir := log_dir args; task_mode := mode args |})
      (combine (map (fun p => default ∅ (dict_get p p_config)) (sections p_config))
               (sections p_config)).

(** *** [multiprocessing.Pool.starmap]

    The pool cuts the task list into consecutive chunks of
    [ceil(len / (4 * processes))] tasks and hands each chunk to a worker
    process, which runs its tasks one after the other.  An exception
    escaping a task ends the chunk and is re-raised by [starmap];
    [SystemExit] is not caught by the worker loop: the process ends, the
    rest of its chunk is never run, and [starmap] never gets the chunk's
    result.  Processes share nothing, so each run starts from an empty
    history in the world of its own portfolio.  (When [starmap] raises,
    the driver dies and takes the workers with it; which runs of other
    chunks are cut short by that is a matter of timing and is not
    represented: the records are the runs as far as each chunk gets.) *)
Definition chunksize (n processes : nat) : nat :=
  match n with
  | O => O
  | _ => let d := (processes * 4)%nat in
         (n / d + (if (n mod d =? 0)%nat then 0 else 1))%nat
  end.

Fixpoint chunks_from {T : Type} (fuel size : nat) (l : list T) : list (list T) :=
  match fuel, l with
  | S fuel', _ :: _ => take size l :: chunks_from fuel' size (drop size l)
  | _, _ => []
  end.

Definition chunks {T : Type} (size : nat) (l : list T) : list (list T) :=
  chunks_from (length l) size l.

Inductive chunk_end : Type :=
| ChunkDone
| ChunkRaised (e : exn)
| WorkerExited (code : Z).

Inductive pool_end : Type :=
| PoolReturned
| PoolRaised (e : exn)
| PoolNeverReturns.

Record RunRecord : Type := {
  run_name : string;
  run_trace : list (event float);
  run_outcome : outcome unit
}.

Section Pool.
Context `{Builtins}.
Variable make_portfolio :
  list (string * float) -> Exchange -> float -> string -> prog float (Portfolio float).
Variable executor_run :
  Portfolio float -> Exchange -> bool -> bool -> Z -> string ->
  prog float (ExecutionResult float).

(** The world each portfolio's run talks to (its account at its venue). *)
Variable world : string -> env float.

(** [cpu_count()], at least 1. *)
Variable cpu_count : positive.

Definition run_task (t : Task) : RunRecord :=
  let r := run (world (task_name t))
               (balancing make_portfolio executor_run (task_config t) (task_name t)
                          (task_trade t) (task_force t) (task_max_orders t)
                          (task_cancel t) (task_log_dir t) (task_mode t)) [] in
  {| run_name := task_name t; run_trace := fst r; run_outcome := snd r |}.

Definition returns (t : Task) : Prop :=
  exists u, run_outcome (run_task t) = Returned u.

Fixpoint run_chunk (ts : list Task) : list RunRecord * chunk_end :=
  match ts with
  | [] => ([], ChunkDone)
  | t :: rest =>
      let r := run_task t in
      match run_outcome r with
      | Returned _ => let '(rs, e) := run_chunk rest in (r :: rs, e)
      | Raised e => ([r], ChunkRaised e)
      | Exited code => ([r], WorkerExited code)
      end
  end.

Definition pool_result (ends : list chunk_end) : pool_end :=
  if existsb (fun e => match e with WorkerExited _ => true | _ => false end) ends
  then PoolNeverReturns
  else match omap (fun e => match e with ChunkRaised x => Some x | _ => None end) ends with
       | x :: _ => PoolRaised x
       | [] => PoolReturned
       end.

Definition starmap (ts : list Task) : list RunRecord * pool_end :=
  let done := map run_chunk (chunks (chunksize (length ts) (Pos.to_nat cpu_count)) ts) in
  (concat (map fst done), pool_result (map snd done)).

(** Lines 135-171.  [None]: the argument parser exited before any pool
    was created. *)
Definition main (p_config : config) (cl : CommandLine)
  : option (list RunRecord * pool_end) :=
  args ← parse_args (sections p_config) cl;
  Some (starmap (tasks p_config args)).
End Pool.

End Main.

(** ** Concrete worlds and configurations, for evaluation *)

Module Demo.
Import Main.
Local Open Scope float_scope.

Definition newline : string := String "010"%char EmptyString.

Definition pricing : pricing_mode -> side -> string -> float := fun _ _ _ => 10000.

Definition no_fee : string -> side -> float -> float -> pricing_mode -> float :=
  fun _ _ _ _ _ => 0.

(** A venue holding 1 BTC and 9000 USDT, BTC quoted at 10000, one stale
    open order, every submission filled. *)
Definition venue : env float := fun _ X c =>
  match c in call _ X return exn + X with
  | OpenLog _ _ => inr tt
  | NewExchange name _ _ _ => inr {| exchange_name := name |}
  | CancelOrders _ => inr [ {| oo_symbol := "BTC/USDT"; oo_id := "17" |} ]
  | GetBalances _ => inr [("BTC", 1); ("USDT", 9000)]
  | GetPrice _ _ _ => inr 10000
  | SubmitOrder _ _ => inr Filled
  end.

(** The same venue, except that cancelling open orders fails. *)
Definition venue_cancel_fails : env float := fun h X c =>
  match c in call _ X return exn + X with
  | CancelOrders _ => inl (OtherError "NetworkError")
  | c' => venue h _ c'
  end.

Definition portfolio_section (target_lines : list string) : section :=
  list_to_map [("targets", String.concat newline target_lines);
               ("exchange", "binance"); ("api_key", "k"); ("api_secret", "s");
               ("threshold", "1")].

Definition balanced_5050 : section := portfolio_section ["BTC 50"; "USDT 50"].
Definition sums_to_99 : section := portfolio_section ["BTC 50"; "USDT 49"].
Definition one_word_line : section := portfolio_section ["BTC"].
Definition decimal_100 : section := portfolio_section ["A 66.6"; "B 33.3"; "C 0.1"].
Definition near_target : section := portfolio_section ["BTC 52.6"; "USDT 47.4"].

Definition engine_balancing (w : env float) (cfg : section) (name : string)
    (trade force cancel : bool) : list (event float) * outcome unit :=
  run w (balancing (H := decimal_builtins) Engine.make_portfolio
                   (Engine.executor_run pricing no_fee)
                   cfg name trade force (VInt 5) cancel "logs" "mid") [].

Definition no_options : CommandLine :=
  {| opt_trade := false; opt_force := false; opt_max_orders := None;
     opt_cancel := false; opt_log_dir := None; opt_mode := None;
     opt_portfolio := None |}.


Definition five_portfolios : config :=
  [("a", one_word_line); ("b", balanced_5050); ("c", balanced_5050);
   ("d", balanced_5050); ("e", balanced_5050)].

(** The holdings of [venue] valued against 50/50 targets (section 8 of the
    specification). *)
Definition worked_example : exn + Portfolio float :=
  Engine.Value [("BTC", 1); ("USDT", 9000)] [("BTC", 10000)] "USDT"
               [("BTC", 50); ("USDT", 50)] 1.

Definition within_threshold : Portfolio float :=
  {| balances := [("BTC", 1); ("USDT", 10000)];
     balances_pct := [("BTC", 50); ("USDT", 50)];
     valuation_quote := 20000;
     quote_currency := "USDT";
     balance_rms_error := 0;
     balance_max_error := 0;
     needs_balancing := false;
     targets := [("BTC", 50); ("USDT", 50)];
     threshold := 1;
     rates := [("BTC", 10000)] |}.




(** What tolerating a failed cancellation would give in world [w]: a
    warning in the log, and a valuation after it. *)
Definition cancel_failure_tolerated (w : env float) (cfg : section) : Prop :=
  let history := fst (engine_balancing w cfg "p" false false true) in
  existsb is_warning history = true /\ existsb is_valuation history = true.
End Demo.

(** ** Further observations on runs, and the cases they are evaluated on *)

Module Cases.
Import Main.
Local Open Scope float_scope.

Definition is_cancellation {A : Type} (ev : event A) : bool :=
match ev with
| EvCall (CancelOrders _) => true
| _ => false
end.

Definition has_space (s : string) : bool :=
existsb is_space (list_ascii_of_string s).

Definition contains (c : ascii) (s : string) : bool :=
existsb (Ascii.eqb c) (list_ascii_of_string s).

Definition info (m : msg float) : event float := EvLog INFO m.

(** The record lines 56-59 (and 93-97) write for one currency, when its
    three subscripts succeed. *)
Definition balance_line (targets : list (string * float)) (portfolio : Portfolio float)
  (cur : string) : option (msg float) :=
bal ← dict_get cur (balances portfolio);
pct ← dict_get cur (balances_pct portfolio);
tgt ← dict_get cur targets;
Some (BalanceLine cur bal pct tgt).

(** The records lines 115-123 write. *)
Definition order_lines (trade : bool) (res : ExecutionResult float) : list (msg float) :=
if trade then map Submitted (success res) ++ map Failed (errors res)
else map Proposed (orders res).

(** The first of the options [ks] that the section lacks. *)
Definition first_missing (portfolio_config : section) (ks : list string) : option string :=
List.find (fun k => match portfolio_config !! k with None => true | Some _ => false end) ks.

Section Reaching.
Context `{Builtins}.

(** What line 49 raises, if it raises. *)
Definition threshold_error (portfolio_config : section) : option exn :=
match portfolio_config !! "threshold" with
| None => Some (KeyError "threshold")
| Some ts => match float_of_str ts with
             | None => Some ValueError
             | Some _ => None
             end
end.

(** The history of a run that has passed lines 19-47. *)
Definition history_at_line_49 (name log_dir : string) (tg : list (string * float))
  (venue key secret : string) (ex : Exchange) (cancel : bool)
  (cancelled : list OpenOrder) : list (event float) :=
[EvCall (OpenLog log_dir name);
 EvCall (NewExchange venue (keys tg) key secret);
 info (Connected (exchange_name ex))]
++ (if cancel
    then info CancellingOpenOrders :: EvCall (CancelOrders ex)
         :: map (fun o => info (CancelledOrder (oo_symbol o) (oo_id o))) cancelled
    else []).

(** The section and the world let the run pass lines 19-47: the log file
    opens, the targets parse and total 100, the three connection options
    are there, the exchange is constructed and, when asked for, the
    cancellation returns. *)
Definition reaches_line_49 (w : env float) (portfolio_config : section)
  (name log_dir : string) (tg : list (string * float)) (venue key secret : string)
  (ex : Exchange) (cancel : bool) (cancelled : list OpenOrder) : Prop :=
w [] unit (OpenLog log_dir name) = inr tt
/\ (exists raw, portfolio_config !! "targets" = Some raw /\ parse_targets raw = Some tg)
/\ PrimFloat.eqb (total_target tg) 100 = true
/\ portfolio_config !! "exchange" = Some venue
/\ portfolio_config !! "api_key" = Some key
/\ portfolio_config !! "api_secret" = Some secret
/\ w [EvCall (OpenLog log_dir name)] Exchange
     (NewExchange venue (keys tg) key secret) = inr ex
/\ (cancel = true ->
    w [EvCall (OpenLog log_dir name);
       EvCall (NewExchange venue (keys tg) key secret);
       info (Connected (exchange_name ex));
       info CancellingOpenOrders] _ (CancelOrders ex) = inr cancelled).
End Reaching.

(** A task's run neither returns nor exits: an exception escapes it. *)
Definition raises (r : RunRecord) : bool :=
match run_outcome r with
| Raised _ => true
| _ => false
end.

(** Sections for evaluation. *)
Definition no_threshold : section := delete "threshold" Demo.balanced_5050.
Definition no_api_key : section := delete "api_key" Demo.balanced_5050.
Definition no_targets : section := delete "targets" Demo.balanced_5050.
Definition repeated_asset : section :=
  Demo.portfolio_section ["BTC 40"; "USDT 50"; "BTC 50"].

(** A portfolio holding a currency (DOGE) that has no target. *)
Definition stray_holding : Portfolio float :=
  {| balances := [("BTC", 1); ("DOGE", 5); ("USDT", 10000)];
     balances_pct := [("BTC", 50); ("DOGE", 0); ("USDT", 50)];
     valuation_quote := 20000;
     quote_currency := "USDT";
     balance_rms_error := 0;
     balance_max_error := 0;
     needs_balancing := false;
     targets := [("BTC", 50); ("USDT", 50)];
     threshold := 1;
     rates := [("BTC", 10000)] |}.

(** A result as a live run could return it: one order filled, one failed. *)
Definition sell_btc : Order float :=
  {| asset := "BTC"; order_side := SELL; amount := 1; limit_price := 10000;
     order_mode := mid |}.

Definition buy_eth : Order float :=
  {| asset := "ETH"; order_side := BUY; amount := 2; limit_price := 500;
     order_mode := mid |}.

Definition mixed_result (proposed : option (Portfolio float)) : ExecutionResult float :=
  {| initial_portfolio := Demo.within_threshold;
     proposed_portfolio := proposed;
     total_fee := 0;
     success := [sell_btc];
     errors := [(buy_eth, "REJECTED: insufficient balance")];
     orders := [sell_btc; buy_eth] |}.

Definition three_portfolios : config :=
  [("a", Demo.one_word_line); ("b", Demo.sums_to_99); ("c", Demo.sums_to_99)].
End Cases.

(** * Properties *)

Import Main.

(** ** Running programs *)

Section RunFacts.
Context {A : Type}.
Implicit Types (w : env A) (h : list (event A)) (bad : event A -> bool).

Lemma run_bind {R S : Type} w (p : prog A R) (f : R -> prog A S) h :
  run w (bind p f) h =
  match run w p h with
  | (h', Returned r) => run w (f r) h'
  | (h', Raised e) => (h', Raised e)
  | (h', Exited c) => (h', Exited c)
  end.
Proof.
  revert h. induction p as [r|e|c|l m k IH|X c k IH]; intros h; simpl; try reflexivity.
  - apply IH.
  - destruct (w h X c) as [e|x]; [reflexivity | apply IH].
Qed.

Lemma never_bind {R S : Type} bad (p : prog A R) (f : R -> prog A S) :
  never bad p -> (forall r, never bad (f r)) -> never bad (bind p f).
Proof.
  intros Hp Hf. induction p as [r|e|c|l m k IH|X c k IH]; simpl in *; auto.
  - destruct Hp; split; auto.
  - destruct Hp as [Hc Hk]. split; [exact Hc | intros x; apply IH, Hk].
Qed.

Lemma never_run {R : Type} bad (p : prog A R) w h :
  never bad p -> existsb bad (fst (run w p h)) = existsb bad h.
Proof.
  revert h. induction p as [r|e|c|l m k IH|X c k IH]; intros h Hp; simpl in *;
    try reflexivity.
  - destruct Hp as [Hb Hk]. rewrite IH by exact Hk.
    rewrite existsb_app; simpl. rewrite Hb. now rewrite !orb_false_r.
  - destruct Hp as [Hb Hk].
    assert (Hh : existsb bad (h ++ [EvCall c]) = existsb bad h).
    { rewrite existsb_app; simpl. rewrite Hb. now rewrite !orb_false_r. }
    destruct (w h X c) as [e|x]; simpl; [exact Hh |].
    rewrite IH by apply Hk. exact Hh.
Qed.
End RunFacts.

Ltac step := unfold mbind, prog_bind, mret, prog_ret; simpl.

(** ** Validation of the targets (lines 19-33) *)

Section Validation.
Context `{Builtins}.
Variable make_portfolio :
  list (string * float) -> Exchange -> float -> string -> prog float (Portfolio float).
Variable executor_run :
  Portfolio float -> Exchange -> bool -> bool -> Z -> string ->
  prog float (ExecutionResult float).

Lemma balancing_unparsable cfg name trade force max_orders cancel log_dir mode raw w :
  cfg !! "targets" = Some raw ->
  parse_targets raw = None ->
  run w (balancing make_portfolio executor_run cfg name trade force max_orders cancel
                   log_dir mode) [] =
  match w [] unit (OpenLog log_dir name) with
  | inl e => ([EvCall (OpenLog log_dir name)], Raised e)
  | inr _ => ([EvCall (OpenLog log_dir name); EvLog ERROR TargetsFormatInvalid], Exited 1)
  end.
Proof.
  intros Hraw Hparse. unfold Main.balancing, set_up_logger, perform, subscript.
  step. destruct (w [] unit (OpenLog log_dir name)) as [e|[]]; [reflexivity|].
  rewrite Hraw. simpl. rewrite Hparse. reflexivity.
Qed.

Lemma balancing_validated cfg name trade force max_orders cancel log_dir mode raw tg w :
  cfg !! "targets" = Some raw ->
  parse_targets raw = Some tg ->
  run w (balancing make_portfolio executor_run cfg name trade force max_orders cancel
                   log_dir mode) [] =
  match w [] unit (OpenLog log_dir name) with
  | inl e => ([EvCall (OpenLog log_dir name)], Raised e)
  | inr _ =>
      if PrimFloat.eqb (total_target tg) 100 then
        run w (connect_and_rebalance make_portfolio executor_run cfg tg trade force
                                     max_orders cancel mode)
            [EvCall (OpenLog log_dir name)]
      else ([EvCall (OpenLog log_dir name);
             EvLog ERROR (TotalTargetNot100 (total_target tg))], Returned tt)
  end.
Proof.
  intros Hraw Hparse. unfold Main.balancing, set_up_logger, perform, subscript.
  step. destruct (w [] unit (OpenLog log_dir name)) as [e|[]]; [reflexivity|].
  rewrite Hraw. simpl. rewrite Hparse.
  destruct (PrimFloat.eqb (total_target tg) 100); reflexivity.
Qed.

(** C1.  When the targets parse but their total is not 100, the run logs
    the error and returns: the history holds the opening of the log file
    and that one error record, so no exchange is constructed, nothing is
    fetched from the venue and nothing is submitted, whatever the
    collaborating classes and the world are. *)
Theorem total_not_100_refused cfg name trade force max_orders cancel log_dir mode raw tg w :
  cfg !! "targets" = Some raw ->
  parse_targets raw = Some tg ->
  PrimFloat.eqb (total_target tg) 100 = false ->
  run w (balancing make_portfolio executor_run cfg name trade force max_orders cancel
                   log_dir mode) [] =
    match w [] unit (OpenLog log_dir name) with
    | inl e => ([EvCall (OpenLog log_dir name)], Raised e)
    | inr _ => ([EvCall (OpenLog log_dir name);
                 EvLog ERROR (TotalTargetNot100 (total_target tg))], Returned tt)
    end
  /\ existsb is_venue
       (fst (run w (balancing make_portfolio executor_run cfg name trade force max_orders
                              cancel log_dir mode) []))
     = false.
Proof.
  intros Hraw Hparse Hsum.
  assert (E := balancing_validated cfg name trade force max_orders cancel log_dir mode
                                   raw tg w Hraw Hparse).
  rewrite Hsum in E. rewrite E.
  split; [reflexivity|].
  destruct (w [] unit (OpenLog log_dir name)); reflexivity.
Qed.
End Validation.

Lemma total_not_100_refused_witness :
  Demo.engine_balancing Demo.venue Demo.sums_to_99 "p" true false true =
    ([EvCall (OpenLog "logs" "p"); EvLog ERROR (TotalTargetNot100 99%float)], Returned tt)
  /\ existsb is_venue
       (fst (Demo.engine_balancing Demo.venue Demo.sums_to_99 "p" true false true)) = false.
Proof.
  exact (total_not_100_refused (H := decimal_builtins) Engine.make_portfolio
           (Engine.executor_run Demo.pricing Demo.no_fee)
           Demo.sums_to_99 "p" true false (VInt 5) true "logs" "mid"
           (String.concat Demo.newline ["BTC 50"; "USDT 49"])
           [("BTC", 50%float); ("USDT", 49%float)] Demo.venue
           eq_refl eq_refl eq_refl).
Defined.

(** ** After validation (lines 35-52) *)

Section Connection.
Context `{Builtins}.
Variable make_portfolio :
  list (string * float) -> Exchange -> float -> string -> prog float (Portfolio float).
Variable executor_run :
  Portfolio float -> Exchange -> bool -> bool -> Z -> string ->
  prog float (ExecutionResult float).

Lemma log_cancelled_run w (l : list OpenOrder) h :
  run w (log_cancelled l) h =
  (h ++ map (fun o => EvLog INFO (CancelledOrder (oo_symbol o) (oo_id o))) l,
   Returned tt).
Proof.
  revert h. induction l as [|o l IH]; intros h; simpl.
  - now rewrite app_nil_r.
  - rewrite IH, <- app_assoc. reflexivity.
Qed.

Lemma connect_runs (cfg : section) tg trade force max_orders cancel mode
    (w : env float) h name key secret ex :
  cfg !! "exchange" = Some name ->
  cfg !! "api_key" = Some key ->
  cfg !! "api_secret" = Some secret ->
  w h Exchange (NewExchange name (keys tg) key secret) = inr ex ->
  run w (connect_and_rebalance make_portfolio executor_run cfg tg trade force
                               max_orders cancel mode) h =
  let h1 := h ++ [EvCall (NewExchange name (keys tg) key secret);
                  EvLog INFO (Connected (exchange_name ex))] in
  if cancel then
    let h2 := h1 ++ [EvLog INFO CancellingOpenOrders] in
    match w h2 _ (CancelOrders ex) with
    | inl e => (h2 ++ [EvCall (CancelOrders ex)], Raised e)
    | inr l =>
        run w (rebalance make_portfolio executor_run cfg tg (valuebase_of cfg) ex
                         trade force max_orders mode)
            (h2 ++ EvCall (CancelOrders ex)
                :: map (fun o => EvLog INFO (CancelledOrder (oo_symbol o) (oo_id o))) l)
    end
  else
    run w (rebalance make_portfolio executor_run cfg tg (valuebase_of cfg) ex
                     trade force max_orders mode) h1.
Proof.
  intros He Hk Hs Hex. unfold connect_and_rebalance, subscript, perform.
  rewrite He, Hk, Hs. step. rewrite Hex. rewrite <- !app_assoc. simpl.
  destruct cancel; simpl; [|reflexivity].
  unfold cancel_open_orders, perform, log. step. rewrite <- !app_assoc. simpl.
  destruct (w _ _ (CancelOrders ex)) as [e|l]; [reflexivity|].
  rewrite !run_bind, log_cancelled_run. simpl.
  rewrite <- !app_assoc. reflexivity.
Qed.
End Connection.

Section Pipeline.
Context `{Builtins}.
Variable make_portfolio :
  list (string * float) -> Exchange -> float -> string -> prog float (Portfolio float).
Variable executor_run :
  Portfolio float -> Exchange -> bool -> bool -> Z -> string ->
  prog float (ExecutionResult float).

Lemma rebalance_runs (cfg : section) tg vb ex trade force max_orders mode
    (w : env float) h ts :
  cfg !! "threshold" = Some ts ->
  run w (rebalance make_portfolio executor_run cfg tg vb ex trade force max_orders mode) h =
  match float_of_str ts with
  | None => (h, Raised ValueError)
  | Some thr =>
      run w (bind (to_int max_orders) (fun n =>
               value_and_execute make_portfolio executor_run tg ex thr n vb
                                 trade force mode)) h
  end.
Proof.
  intros Ht. unfold rebalance, subscript, to_float. rewrite Ht. step.
  destruct (float_of_str ts); reflexivity.
Qed.

(** C6 (amended).  With [cancel] set, the cancellation is called once the
    exchange is constructed and before anything of the valuation, the
    planning or the execution.  When it returns, every cancelled order
    is logged at INFO level and the run goes on; when it raises, nothing
    catches the exception: the run ends with it, right there. *)
Theorem cancellation_precedes_and_is_not_guarded
    (cfg : section) name trade force max_orders log_dir mode raw tg
    (w : env float) venue_name key secret ex :
  cfg !! "targets" = Some raw ->
  parse_targets raw = Some tg ->
  PrimFloat.eqb (total_target tg) 100 = true ->
  w [] unit (OpenLog log_dir name) = inr tt ->
  cfg !! "exchange" = Some venue_name ->
  cfg !! "api_key" = Some key ->
  cfg !! "api_secret" = Some secret ->
  w [EvCall (OpenLog log_dir name)] Exchange
    (NewExchange venue_name (keys tg) key secret) = inr ex ->
  let h := [EvCall (OpenLog log_dir name);
            EvCall (NewExchange venue_name (keys tg) key secret);
            EvLog INFO (Connected (exchange_name ex));
            EvLog INFO CancellingOpenOrders] in
  run w (balancing make_portfolio executor_run cfg name trade force max_orders
                   true log_dir mode) [] =
  match w h _ (CancelOrders ex) with
  | inl e => (h ++ [EvCall (CancelOrders ex)], Raised e)
  | inr cancelled =>
      run w (rebalance make_portfolio executor_run cfg tg (valuebase_of cfg) ex
                       trade force max_orders mode)
          (h ++ EvCall (CancelOrders ex)
             :: map (fun o => EvLog INFO (CancelledOrder (oo_symbol o) (oo_id o)))
                    cancelled)
  end.
Proof.
  intros Hraw Hparse Hsum Hlog He Hk Hs Hex h.
  rewrite (balancing_validated _ _ cfg name trade force max_orders true log_dir mode
                               raw tg w Hraw Hparse), Hlog, Hsum.
  rewrite (connect_runs _ _ cfg tg trade force max_orders true mode w _
                        venue_name key secret ex He Hk Hs Hex).
  reflexivity.
Qed.

(** C10.  The quote currency handed to the valuation is ['USDT'] when the
    section has no [valuebase] entry or an empty one, and the entry itself
    otherwise. *)
Theorem valuebase_defaults_to_USDT
    (cfg : section) name trade force max_orders log_dir mode raw tg
    (w : env float) venue_name key secret ex ts thr :
  cfg !! "targets" = Some raw ->
  parse_targets raw = Some tg ->
  PrimFloat.eqb (total_target tg) 100 = true ->
  w [] unit (OpenLog log_dir name) = inr tt ->
  cfg !! "exchange" = Some venue_name ->
  cfg !! "api_key" = Some key ->
  cfg !! "api_secret" = Some secret ->
  w [EvCall (OpenLog log_dir name)] Exchange
    (NewExchange venue_name (keys tg) key secret) = inr ex ->
  cfg !! "threshold" = Some ts ->
  float_of_str ts = Some thr ->
  run w (balancing make_portfolio executor_run cfg name trade force (VInt max_orders)
                   false log_dir mode) [] =
  run w (bind (make_portfolio tg ex thr
                 match cfg !! "valuebase" with
                 | None => "USDT"
                 | Some v => if String.eqb v "" then "USDT" else v
                 end)
              (fun portfolio =>
                 execute_and_report executor_run tg thr portfolio ex trade force
                                    max_orders mode))
      [EvCall (OpenLog log_dir name);
       EvCall (NewExchange venue_name (keys tg) key secret);
       EvLog INFO (Connected (exchange_name ex))].
Proof.
  intros Hraw Hparse Hsum Hlog He Hk Hs Hex Hts Hthr.
  rewrite (balancing_validated _ _ cfg name trade force (VInt max_orders) false log_dir
                               mode raw tg w Hraw Hparse), Hlog, Hsum.
  rewrite (connect_runs _ _ cfg tg trade force (VInt max_orders) false mode w _
                        venue_name key secret ex He Hk Hs Hex).
  cbv zeta. rewrite (rebalance_runs cfg tg _ ex trade force _ mode w _ ts Hts), Hthr.
  simpl. unfold value_and_execute, valuebase_of, truthy.
  destruct (cfg !! "valuebase") as [v|]; [|reflexivity].
  destruct v; reflexivity.
Qed.

Lemma dict_set_In {V : Type} (k : string) (v : V) d x :
  In x (dict_set k v d) -> x = (k, v) \/ In x d.
Proof.
  induction d as [|[k' v'] d IH]; simpl.
  - intros [<-|[]]. now left.
  - destruct (String.eqb k k'); simpl.
    + intros [<-|Hx]; [now left | right; now right].
    + intros [<-|Hx]; [right; now left |].
      destruct (IH Hx); [now left | right; now right].
Qed.

Lemma dict_of_In {V : Type} (rows : list (string * V)) x :
  In x (dict_of rows) -> In x rows.
Proof.
  unfold dict_of.
  assert (G : forall d, In x (fold_left (fun d '(k, v) => dict_set k v d) rows d) ->
                        In x d \/ In x rows).
  { induction rows as [|[k v] rows IH]; simpl; intros d Hx; [now left|].
    destruct (IH _ Hx) as [Hd|Hr]; [|right; now right].
    destruct (dict_set_In _ _ _ _ Hd) as [->|Hd']; [right; now left | now left]. }
  intros Hx. destruct (G [] Hx) as [[]|Hr]. exact Hr.
Qed.


End Pipeline.

(** *** Evaluated on the demonstration venue *)

Lemma cancellation_precedes_and_is_not_guarded_witness :
  Demo.engine_balancing Demo.venue_cancel_fails Demo.balanced_5050 "p" false false true =
  ([EvCall (OpenLog "logs" "p");
    EvCall (NewExchange "binance" ["BTC"; "USDT"] "k" "s");
    EvLog INFO (Connected "binance");
    EvLog INFO CancellingOpenOrders;
    EvCall (CancelOrders {| exchange_name := "binance" |})],
   Raised (OtherError "NetworkError")).
Proof.
  exact (cancellation_precedes_and_is_not_guarded (H := decimal_builtins)
           Engine.make_portfolio (Engine.executor_run Demo.pricing Demo.no_fee)
           Demo.balanced_5050 "p" false false (VInt 5) "logs" "mid"
           (String.concat Demo.newline ["BTC 50"; "USDT 50"])
           [("BTC", 50%float); ("USDT", 50%float)] Demo.venue_cancel_fails
           "binance" "k" "s" {| exchange_name := "binance" |}
           eq_refl eq_refl eq_refl eq_refl eq_refl eq_refl eq_refl eq_refl).
Defined.

(** C6 (as stated, refuted).  In a world where cancelling fails, the run
    with [cancel] set logs no warning and never reaches the valuation. *)
Lemma cancel_failure_not_tolerated :
  ~ Demo.cancel_failure_tolerated Demo.venue_cancel_fails Demo.balanced_5050.
Proof.
  unfold Demo.cancel_failure_tolerated. intros [Hwarn _].
  vm_compute in Hwarn. discriminate Hwarn.
Qed.

Lemma valuebase_defaults_to_USDT_witness :
  Demo.engine_balancing Demo.venue Demo.balanced_5050 "p" false false false =
  run Demo.venue
      (bind (Engine.make_portfolio [("BTC", 50%float); ("USDT", 50%float)]
                                   {| exchange_name := "binance" |} 1%float "USDT")
            (fun portfolio =>
               execute_and_report (Engine.executor_run Demo.pricing Demo.no_fee)
                 [("BTC", 50%float); ("USDT", 50%float)] 1%float portfolio
                 {| exchange_name := "binance" |} false false 5 "mid"))
      [EvCall (OpenLog "logs" "p");
       EvCall (NewExchange "binance" ["BTC"; "USDT"] "k" "s");
       EvLog INFO (Connected "binance")].
Proof.
  exact (valuebase_defaults_to_USDT (H := decimal_builtins)
           Engine.make_portfolio (Engine.executor_run Demo.pricing Demo.no_fee)
           Demo.balanced_5050 "p" false false 5%Z "logs" "mid"
           (String.concat Demo.newline ["BTC 50"; "USDT 50"])
           [("BTC", 50%float); ("USDT", 50%float)] Demo.venue
           "binance" "k" "s" {| exchange_name := "binance" |} "1" 1%float
           eq_refl eq_refl eq_refl eq_refl eq_refl eq_refl eq_refl eq_refl
           eq_refl eq_refl).
Defined.

Example valuebase_given : valuebase_of (<["valuebase" := "BTC"]> Demo.balanced_5050) = "BTC".
Proof. reflexivity. Qed.

Example valuebase_empty : valuebase_of (<["valuebase" := ""]> Demo.balanced_5050) = "USDT".
Proof. reflexivity. Qed.



(** The same section is refused under either summation. *)
Example decimal_100_refused :
  forall B, B = decimal_builtins \/ B = decimal_builtins_312 ->
  run Demo.venue
      (balancing (H := B) Engine.make_portfolio
                 (Engine.executor_run Demo.pricing Demo.no_fee)
                 Demo.decimal_100 "p" true false (VInt 5) false "logs" "mid") []
  = ([EvCall (OpenLog "logs" "p");
      EvLog ERROR (TotalTargetNot100
                     (PrimFloat.sub 100 (PrimFloat.div 1 70368744177664)))],
     Returned tt).
Proof. intros B [-> | ->]; vm_compute; reflexivity. Qed.

(** C7.  On one processor, five portfolios make chunks of two tasks.  The
    first section has a one-word target line: its run logs the error and
    exits with status 1 before any venue call, and with it goes the
    worker process: [b], the next task of the chunk, is never run, and
    [starmap] never returns. *)
Lemma unparsable_targets_end_the_worker :
  sections Demo.five_portfolios = ["a"; "b"; "c"; "d"; "e"]
  /\ match main (H := decimal_builtins) Engine.make_portfolio
                (Engine.executor_run Demo.pricing Demo.no_fee)
                (fun _ => Demo.venue) 1%positive Demo.five_portfolios Demo.no_options with
     | Some (first :: others, ending) =>
         first = {| run_name := "a";
                    run_trace := [EvCall (OpenLog "logs" "a");
                                  EvLog ERROR TargetsFormatInvalid];
                    run_outcome := Exited 1 |}
         /\ map run_name others = ["c"; "d"; "e"]
         /\ ending = PoolNeverReturns
     | _ => False
     end.
Proof. vm_compute. repeat split. Qed.

(** ** The command line and the pool (lines 135-171) *)


Ltac bind_in H := unfold mbind, option_bind in H; cbv beta iota in H.




Lemma task_names (p_config : config) args :
  map task_name (tasks p_config args) = sections p_config.
Proof.
  unfold tasks. generalize (fun p => default (∅ : section) (dict_get p p_config)).
  intros f. induction (sections p_config) as [|p ps IH]; simpl; [reflexivity|].
  now rewrite IH.
Qed.



Section PoolFacts.
Context `{Builtins}.
Variable make_portfolio :
  list (string * float) -> Exchange -> float -> string -> prog float (Portfolio float).
Variable executor_run :
  Portfolio float -> Exchange -> bool -> bool -> Z -> string ->
  prog float (ExecutionResult float).
Variable world : string -> env float.
Variable cpu_count : positive.

Abbreviation run_task := (run_task make_portfolio executor_run world).
Abbreviation run_chunk := (run_chunk make_portfolio executor_run world).
Abbreviation returns := (returns make_portfolio executor_run world).
Abbreviation starmap := (starmap make_portfolio executor_run world cpu_count).
Abbreviation main := (main make_portfolio executor_run world cpu_count).


Lemma run_name_task t : run_name (run_task t) = task_name t.
Proof. reflexivity. Qed.



End PoolFacts.



(** ** The planner (specification 4.3) *)

Section PlannerFacts.
Context {A : Type} `{Number A}.
Variable pricing : pricing_mode -> side -> string -> A.
Variable fee_schedule : string -> side -> A -> A -> pricing_mode -> A.

Lemma plan_loop_bounded slots :
  forall force m prices quote tgts thr h os hf part,
    Engine.plan_loop pricing slots force m prices quote tgts thr h = inr (os, hf, part) ->
    (length os <= slots)%nat.
Proof.
  induction slots as [slots IH] using lt_wf_ind.
  intros force m prices quote tgts thr h os hf part.
  destruct slots as [|slots1]; simpl.
  - intros [= <- _ _]. simpl. lia.
  - destruct (Engine.improving_pairing pricing force m prices quote tgts thr h)
      as [e|[[[legs h'] clamp]|]]; [discriminate| |intros [= <- _ _]; simpl; lia].
    destruct legs as [|o1 [|o2 [|o3 legs]]].
    + intros [= <- _ _]. simpl. lia.
    + destruct (Engine.plan_loop pricing slots1 force m prices quote tgts thr h')
        as [e|[[os1 hf1] part1]] eqn:E; [discriminate|].
      intros [= <- _ _]. apply IH in E; [simpl; lia | lia].
    + destruct slots1 as [|slots2]; [intros [= <- _ _]; simpl; lia|].
      destruct (Engine.plan_loop pricing slots2 force m prices quote tgts thr h')
        as [e|[[os1 hf1] part1]] eqn:E; [discriminate|].
      intros [= <- _ _]. apply IH in E; [simpl; lia | lia].
    + intros [= <- _ _]. simpl. lia.
Qed.

Lemma plan_loop_prefix slots :
  forall slots' force m prices quote tgts thr h os hf part os' hf' part',
    (slots <= slots')%nat ->
    Engine.plan_loop pricing slots force m prices quote tgts thr h = inr (os, hf, part) ->
    Engine.plan_loop pricing slots' force m prices quote tgts thr h = inr (os', hf', part') ->
    os `prefix_of` os'.
Proof.
  induction slots as [slots IH] using lt_wf_ind.
  intros slots' force m prices quote tgts thr h os hf part os' hf' part' Hle.
  destruct slots as [|slots1]; [intros [= <- _ _] _; apply prefix_nil|].
  destruct slots' as [|slots1']; [lia|]. simpl.
  destruct (Engine.improving_pairing pricing force m prices quote tgts thr h)
    as [e|[[[legs h'] clamp]|]];
    [discriminate| |intros [= <- _ _] _; apply prefix_nil].
  destruct legs as [|o1 [|o2 [|o3 legs]]].
  - intros [= <- _ _] _. apply prefix_nil.
  - destruct (Engine.plan_loop pricing slots1 force m prices quote tgts thr h')
      as [e|[[os1 hf1] part1]] eqn:E; [discriminate|].
    destruct (Engine.plan_loop pricing slots1' force m prices quote tgts thr h')
      as [e|[[os1' hf1'] part1']] eqn:E'; [discriminate|].
    intros [= <- _ _] [= <- _ _]. apply prefix_cons.
    eapply (IH slots1); [lia| |exact E|exact E']. lia.
  - destruct slots1 as [|slots2]; [intros [= <- _ _] _; apply prefix_nil|].
    destruct slots1' as [|slots2']; [lia|].
    destruct (Engine.plan_loop pricing slots2 force m prices quote tgts thr h')
      as [e|[[os1 hf1] part1]] eqn:E; [discriminate|].
    destruct (Engine.plan_loop pricing slots2' force m prices quote tgts thr h')
      as [e|[[os1' hf1'] part1']] eqn:E'; [discriminate|].
    intros [= <- _ _] [= <- _ _]. do 2 apply prefix_cons.
    eapply (IH slots2); [lia| |exact E|exact E']. lia.
  - intros [= <- _ _] _. apply prefix_nil.
Qed.

Lemma Plan_orders initial tgts cap m force pl :
  Engine.Plan pricing fee_schedule initial tgts cap m force = inr pl ->
  exists hf part,
    Engine.plan_loop pricing cap force m (rates initial) (quote_currency initial) tgts
                     (threshold initial) (balances initial)
    = inr (Engine.plan_orders pl, hf, part).
Proof.
  unfold Engine.Plan.
  destruct (Engine.plan_loop pricing cap force m (rates initial) (quote_currency initial)
              tgts (threshold initial) (balances initial)) as [e|[[os hf] part]];
    [discriminate|].
  destruct os as [|o os].
  - intros [= <-]. simpl. now exists hf, part.
  - destruct (Engine.Value _ _ _ _ _) as [e|p']; [discriminate|].
    intros [= <-]. simpl. now exists hf, part.
Qed.

(** C2.  A plan holds at most [maxOrders] orders.  The cap only decides
    where the list of orders stops: under a larger cap the plan begins
    with the very same orders, amounts included. *)
Theorem plan_within_cap initial tgts maxOrders m force pl :
  Engine.Plan pricing fee_schedule initial tgts maxOrders m force = inr pl ->
  (length (Engine.plan_orders pl) <= maxOrders)%nat
  /\ forall cap pl',
       (maxOrders <= cap)%nat ->
       Engine.Plan pricing fee_schedule initial tgts cap m force = inr pl' ->
       Engine.plan_orders pl `prefix_of` Engine.plan_orders pl'.
Proof.
  intros Hp. destruct (Plan_orders _ _ _ _ _ _ Hp) as (hf & part & E). split.
  - exact (plan_loop_bounded _ _ _ _ _ _ _ _ _ _ _ E).
  - intros cap pl' Hle Hp'.
    destruct (Plan_orders _ _ _ _ _ _ Hp') as (hf' & part' & E').
    exact (plan_loop_prefix _ _ _ _ _ _ _ _ _ _ _ _ _ _ _ Hle E E').
Qed.
End PlannerFacts.

(** The worked example of the specification: with a cap of one order the
    plan is the single sale of BTC. *)
Lemma plan_within_cap_witness :
  match Demo.worked_example with
  | inr p =>
      match Engine.Plan Demo.pricing Demo.no_fee p (targets p) 1 mid false with
      | inr pl =>
          map (fun o => (asset o, order_side o)) (Engine.plan_orders pl) = [("BTC", SELL)]
          /\ (length (Engine.plan_orders pl) <= 1)%nat
      | inl _ => False
      end
  | inl _ => False
  end.
Proof.
  destruct Demo.worked_example as [e|p] eqn:Ep; [discriminate Ep|].
  injection Ep as <-.
  destruct (Engine.Plan Demo.pricing Demo.no_fee _ _ 1 mid false) as [e|pl] eqn:E;
    [discriminate E|].
  split.
  - injection E as <-. reflexivity.
  - exact (proj1 (plan_within_cap Demo.pricing Demo.no_fee _ _ 1%nat mid false pl E)).
Defined.

(** The cap is on the count only: under a cap of two orders, one order of
    the plan is for 1500 units. *)
Example cap_does_not_bound_amounts :
  match Engine.Value [("BTC", 1); ("ETH", 10); ("XRP", 0)]%float
                     [("BTC", 10000); ("ETH", 500); ("XRP", 2)]%float "USDT"
                     [("BTC", 40); ("ETH", 40); ("XRP", 20)]%float 1%float with
  | inr p =>
      match Engine.Plan Demo.pricing Demo.no_fee p (targets p) 2 mid false with
      | inr pl => map (fun o => (asset o, order_side o, amount o)) (Engine.plan_orders pl)
                  = [("BTC", SELL, PrimFloat.div 3 10); ("XRP", BUY, 1500%float)]
      | inl _ => False
      end
  | inl _ => False
  end.
Proof. vm_compute. reflexivity. Qed.

(** ** The execution supervisor (specification 4.4) under the driver *)

Section ExecutionFacts.
Variable pricing : pricing_mode -> side -> string -> float.
Variable fee_schedule : string -> side -> float -> float -> pricing_mode -> float.

Abbreviation Execute := (Engine.Execute pricing fee_schedule).
Abbreviation executor_run := (Engine.executor_run pricing fee_schedule).


Lemma log_each_run {T : Type} (f : T -> msg float) (l : list T) (w : env float) h :
  run w (log_each f l) h = (h ++ map (fun x => EvLog INFO (f x)) l, Returned tt).
Proof.
  revert h. induction l as [|x l IH]; intros h; simpl.
  - now rewrite app_nil_r.
  - rewrite IH, <- app_assoc. reflexivity.
Qed.

Lemma never_log_each {T : Type} bad (f : T -> msg float) (l : list T) :
  (forall lv mg, bad (EvLog lv mg : event float) = false) -> never bad (log_each f l).
Proof. intros Hb. induction l; simpl; auto. Qed.

Lemma never_log_balances bad tg (p : Portfolio float) curs :
  (forall lv mg, bad (EvLog lv mg : event float) = false) ->
  never bad (log_balances tg p curs).
Proof.
  intros Hb. induction curs as [|cur curs IH]; simpl; [exact I|].
  unfold getitem.
  destruct (dict_get cur (balances p)); [|exact I].
  destruct (dict_get cur (balances_pct p)); [|exact I].
  destruct (dict_get cur tg); [|exact I].
  simpl. split; [apply Hb | exact IH].
Qed.

Lemma never_report bad tg thr (p : Portfolio float) res trade force :
  (forall lv mg, bad (EvLog lv mg : event float) = false) ->
  never bad (report tg thr p res trade force).
Proof.
  intros Hb. unfold report. step. do 2 (split; [apply Hb|]).
  destruct (negb (needs_balancing p) && negb force); simpl; [auto|].
  do 2 (split; [apply Hb|]).
  destruct (proposed_portfolio res) as [proposed|]; simpl; [|auto].
  apply never_bind; [now apply never_log_balances|]. intros _. simpl.
  repeat (split; [apply Hb|]).
  unfold report_orders. destruct trade.
  - apply never_bind; intros; now apply never_log_each.
  - now apply never_log_each.
Qed.

Lemma never_submit_dry initial ex force n m :
  never is_submission (Execute initial ex force false n m).
Proof.
  unfold Engine.Execute.
  destruct (negb (needs_balancing initial) && negb force); [exact I|].
  unfold lift. step.
  destruct (Engine.Plan pricing fee_schedule initial (targets initial) n m force);
    exact I.
Qed.

Lemma never_submit_untouched initial ex trade n m :
  needs_balancing initial = false ->
  never is_submission (Execute initial ex false trade n m).
Proof. intros Hn. unfold Engine.Execute. rewrite Hn. exact I. Qed.



Lemma never_submit_after_valuation tg thr (p : Portfolio float) ex trade force n mode :
  (trade = false \/ (needs_balancing p = false /\ force = false)) ->
  never is_submission (execute_and_report executor_run tg thr p ex trade force n mode).
Proof.
  intros Hcase. unfold execute_and_report. step. split; [reflexivity|].
  apply never_bind; [now apply never_log_balances|]. intros _. simpl.
  do 2 (split; [reflexivity|]).
  apply never_bind; [|intros res; now apply never_report].
  unfold Engine.executor_run. destruct (mode_of_string mode); [|exact I].
  destruct Hcase as [->|[Hn ->]];
    [apply never_submit_dry | now apply never_submit_untouched].
Qed.

(** C3.  A portfolio whose [needs_balancing] is false is left untouched
    when [force] is not set: [Execute] makes no call at all and returns
    a result with no proposed portfolio and no orders, and the driver's
    run from the valuation on submits nothing, with [trade] set or
    not. *)
Theorem within_threshold_left_untouched
    (initial : Portfolio float) ex trade n m tg thr max_orders mode (w : env float) h :
  needs_balancing initial = false ->
  run w (Execute initial ex false trade n m) h = (h, Returned (Engine.untouched initial))
  /\ proposed_portfolio (Engine.untouched initial) = None
  /\ orders (Engine.untouched initial) = []
  /\ existsb is_submission
       (fst (run w (execute_and_report executor_run tg thr initial ex trade false
                                       max_orders mode) h))
     = existsb is_submission h.
Proof.
  intros Hn. repeat split.
  - unfold Engine.Execute. rewrite Hn. reflexivity.
  - apply never_run, never_submit_after_valuation. right. now split.
Qed.


End ExecutionFacts.

Lemma within_threshold_left_untouched_witness :
  run Demo.venue
      (Engine.Execute Demo.pricing Demo.no_fee Demo.within_threshold
                      {| exchange_name := "binance" |} false true 5 mid) []
  = ([], Returned (Engine.untouched Demo.within_threshold)).
Proof.
  exact (proj1 (within_threshold_left_untouched Demo.pricing Demo.no_fee
                  Demo.within_threshold {| exchange_name := "binance" |} true 5%nat mid
                  [] 1%float 5%Z "mid" Demo.venue [] eq_refl)).
Defined.

(** A live run ([trade] set) on holdings within the threshold of their
    targets: the valuation is the last contact with the venue. *)
Example live_run_within_threshold :
  let r := Demo.engine_balancing Demo.venue Demo.near_target "p" true false false in
  existsb is_submission (fst r) = false
  /\ last (fst r) = Some (EvLog INFO NoBalancingNeeded)
  /\ snd r = Returned tt.
Proof. vm_compute. repeat split. Qed.

(** A dry run on the worked example: the one proposed order is reported
    and nothing is submitted; the same run with [trade] set submits it. *)
Example dry_and_live_runs :
  let dry := Demo.engine_balancing Demo.venue Demo.balanced_5050 "p" false false false in
  let live := Demo.engine_balancing Demo.venue Demo.balanced_5050 "p" true false false in
  existsb is_submission (fst dry) = false
  /\ existsb is_submission (fst live) = true
  /\ match last (fst dry) with
     | Some (EvLog INFO (Proposed o)) => asset o = "BTC" /\ order_side o = SELL
     | _ => False
     end.
Proof. vm_compute. repeat split. Qed.

(** * Further properties of the driver *)

(** ** Reading the targets (lines 22-29) *)

Lemma split_on_nonempty sep s : split_on sep s <> [].
Proof.
  destruct s as [|c s]; simpl; [discriminate|].
  destruct (Ascii.eqb c sep); [discriminate|].
  destruct (split_on sep s); discriminate.
Qed.

Lemma concat_cons_char sep c w ws :
  String.concat sep (String c w :: ws) = String c (String.concat sep (w :: ws)).
Proof. destruct ws; reflexivity. Qed.

(** X1.  [text.split(sep)] loses nothing: no piece contains the separator,
    and joining the pieces with the separator gives the text back.  For
    line 23: the lines of the targets are newline-free, and together they
    are the whole option. *)
Theorem split_on_round_trip (sep : ascii) (s : string) :
  String.concat (String sep EmptyString) (split_on sep s) = s
  /\ Forall (fun piece => Cases.contains sep piece = false) (split_on sep s).
Proof.
  induction s as [|c s [IHj IHp]]; simpl.
  - split; [reflexivity | repeat constructor].
  - destruct (Ascii.eqb c sep) eqn:E.
    + apply Ascii.eqb_eq in E. subst c. split.
      * destruct (split_on sep s) as [|w ws] eqn:S;
          [now destruct (split_on_nonempty sep s)|].
        change (String.concat (String sep "") ("" :: w :: ws))
          with (String sep (String.concat (String sep "") (w :: ws))).
        now rewrite IHj.
      * constructor; [reflexivity | exact IHp].
    + destruct (split_on sep s) as [|w ws] eqn:S;
        [now destruct (split_on_nonempty sep s)|]. split.
      * rewrite concat_cons_char. now rewrite IHj.
      * inversion IHp as [|? ? Hw Hws]; subst. constructor; [|exact Hws].
        unfold Cases.contains in *. simpl.
        rewrite Ascii.eqb_sym, E. exact Hw.
Qed.

Lemma split_words (s : string) :
  Forall (fun word => word <> "" /\ Cases.has_space word = false) (split s).
Proof.
  induction s as [|c s IH]; simpl; [constructor|].
  destruct (is_space c) eqn:Ec; [exact IH|].
  assert (Hone : String c "" <> "" /\ Cases.has_space (String c "") = false).
  { split; [discriminate|]. unfold Cases.has_space. simpl. now rewrite Ec. }
  destruct s as [|c' s']; [repeat constructor; apply Hone|].
  destruct (is_space c') eqn:Ec'; [constructor; [apply Hone | exact IH]|].
  destruct (split (String c' s')) as [|w ws]; [repeat constructor; apply Hone|].
  inversion IH as [|? ? [Hw Hs] Hws]; subst. constructor; [|exact Hws].
  split; [discriminate|]. unfold Cases.has_space in *. simpl. now rewrite Ec.
Qed.

Lemma mapM_None_iff {X Y : Type} (f : X -> option Y) (l : list X) :
  mapM f l = None <-> exists x, In x l /\ f x = None.
Proof.
  induction l as [|x l IH]; simpl.
  - split; [discriminate | intros (? & [] & _)].
  - unfold mbind, option_bind in *. destruct (f x) as [y|] eqn:Fx.
    + destruct (mapM f l) as [ys|] eqn:M.
      * split; [discriminate|]. intros (z & [<-|Hz] & Fz); [congruence|].
        assert (E : Some ys = None) by (apply IH; eauto). discriminate E.
      * split; [|reflexivity]. intros _.
        destruct (proj1 IH eq_refl) as (z & Hz & Fz). eauto.
    + split; [|reflexivity]. intros _. exists x. auto.
Qed.

Lemma dict_set_not_nil {V : Type} k (v : V) d : dict_set k v d <> [].
Proof. destruct d as [|[k' v'] d]; simpl; [|destruct (String.eqb k k')]; discriminate. Qed.

Lemma dict_fold_not_nil {V : Type} (rows d : list (string * V)) :
  d <> [] -> fold_left (fun d '(k, v) => dict_set k v d) rows d <> [].
Proof.
  revert d. induction rows as [|[k v] rows IH]; simpl; intros d Hd; [exact Hd|].
  apply IH, dict_set_not_nil.
Qed.

Lemma dict_of_not_nil {V : Type} (rows : list (string * V)) : rows <> [] -> dict_of rows <> [].
Proof.
  destruct rows as [|[k v] rows]; [congruence|]. intros _. unfold dict_of. simpl.
  apply dict_fold_not_nil. discriminate.
Qed.

Lemma dict_get_set_same {V : Type} k (v : V) d : dict_get k (dict_set k v d) = Some v.
Proof.
  induction d as [|[k' v'] d IH]; simpl.
  - now rewrite String.eqb_refl.
  - destruct (String.eqb k k') eqn:E; simpl; [now rewrite String.eqb_refl|].
    now rewrite E.
Qed.

Lemma dict_get_set_other {V : Type} k k' (v : V) d :
  k' <> k -> dict_get k' (dict_set k v d) = dict_get k' d.
Proof.
  intros Hne. induction d as [|[k0 v0] d IH]; simpl.
  - apply String.eqb_neq in Hne. now rewrite Hne.
  - destruct (String.eqb k k0) eqn:E; simpl.
    + apply String.eqb_eq in E. subst k0.
      apply String.eqb_neq in Hne. now rewrite Hne.
    + destruct (String.eqb k' k0); [reflexivity | exact IH].
Qed.

Lemma dict_set_keys {V : Type} k (v : V) d :
  keys (dict_set k v d) = if existsb (String.eqb k) (keys d) then keys d else keys d ++ [k].
Proof.
  induction d as [|[k' v'] d IH]; simpl; [reflexivity|].
  destruct (String.eqb k k') eqn:E; simpl.
  - apply String.eqb_eq in E. now subst.
  - unfold keys in *. rewrite IH. now destruct (existsb (String.eqb k) (map fst d)).
Qed.

Lemma dict_set_NoDup {V : Type} k (v : V) d :
  List.NoDup (keys d) -> List.NoDup (keys (dict_set k v d)).
Proof.
  intros Hd. rewrite dict_set_keys.
  destruct (existsb (String.eqb k) (keys d)) eqn:E; [exact Hd|].
  apply List.NoDup_app; [exact Hd | repeat constructor; intros [] |].
  intros a Ha [<-|[]].
  assert (existsb (String.eqb k) (keys d) = true); [|congruence].
  apply existsb_exists. exists k. split; [exact Ha | apply String.eqb_refl].
Qed.

Lemma dict_get_app {V : Type} k (d1 d2 : list (string * V)) :
  dict_get k (d1 ++ d2) =
  match dict_get k d1 with Some v => Some v | None => dict_get k d2 end.
Proof.
  induction d1 as [|[k' v'] d1 IH]; simpl; [reflexivity|].
  destruct (String.eqb k k'); [reflexivity | exact IH].
Qed.

Lemma dict_of_spec {V : Type} (rows : list (string * V)) :
  List.NoDup (keys (dict_of rows))
  /\ (forall k, dict_get k (dict_of rows) = dict_get k (rev rows)).
Proof.
  unfold dict_of.
  assert (G : forall d : list (string * V), List.NoDup (keys d) ->
    let r := fold_left (fun d '(k, v) => dict_set k v d) rows d in
    List.NoDup (keys r)
    /\ forall k, dict_get k r =
                 match dict_get k (rev rows) with
                 | Some v => Some v
                 | None => dict_get k d
                 end).
  { induction rows as [|[k v] rows IH]; simpl; intros d Hd; [now split|].
    destruct (IH (dict_set k v d) (dict_set_NoDup k v d Hd)) as [Hn Hg].
    split; [exact Hn|]. intros a. rewrite Hg, dict_get_app. simpl.
    destruct (dict_get a (rev rows)); [reflexivity|].
    destruct (String.eqb a k) eqn:E.
    - apply String.eqb_eq in E. subst a. apply dict_get_set_same.
    - apply String.eqb_neq in E. now apply dict_get_set_other. }
  destruct (G [] (List.NoDup_nil _)) as [Hn Hg]. split; [exact Hn|].
  intros k. rewrite Hg. now destruct (dict_get k (rev rows)).
Qed.

Section Parsing.
Context `{Builtins}.

Lemma parse_targets_rows raw tg :
  parse_targets raw = Some tg ->
  exists rows,
    mapM parse_row (map split (split_on "010" raw)) = Some rows /\ tg = dict_of rows.
Proof.
  unfold parse_targets, mbind, option_bind.
  destruct (mapM parse_row (map split (split_on "010" raw))) as [rows|];
    [|discriminate].
  intros [= <-]. now exists rows.
Qed.

(** X2.  The parsed targets are never empty, and every asset name in them
    is a non-empty word without whitespace. *)
Theorem parsed_targets_are_words raw tg :
  parse_targets raw = Some tg ->
  tg <> []
  /\ forall a x, In (a, x) tg -> a <> "" /\ Cases.has_space a = false.
Proof.
  intros Hp. destruct (parse_targets_rows raw tg Hp) as (rows & Hm & ->).
  apply mapM_Some in Hm. split.
  - apply dict_of_not_nil. intros ->. apply Forall2_nil_inv_r in Hm.
    apply map_eq_nil in Hm. now apply split_on_nonempty in Hm.
  - intros a x Hin. apply dict_of_In in Hin.
    remember (map split (split_on "010" raw)) as wss eqn:Hw.
    assert (Hall : Forall (Forall (fun word => word <> "" /\ Cases.has_space word = false))
                          wss).
    { subst wss. apply Forall_map, Forall_forall. intros; apply split_words. }
    clear Hw Hp. induction Hm as [|ws r wss rows Hrow _ IH]; [contradiction|].
    apply Forall_cons in Hall as [Hws Hall].
    destruct Hin as [->|Hin]; [|apply IH; assumption].
    destruct ws as [|a' [|b [|]]]; simpl in Hrow; try discriminate.
    unfold mbind, option_bind in Hrow. destruct (float_of_str b); [|discriminate].
    injection Hrow as -> _. now apply Forall_cons in Hws as [Ha _].
Qed.

(** X3.  No asset appears twice in the parsed targets, and an asset given
    on several lines keeps the percentage of its last line: the earlier
    lines do not count towards the total. *)
Theorem repeated_asset_last_line_wins raw tg :
  parse_targets raw = Some tg ->
  List.NoDup (keys tg)
  /\ exists rows,
       mapM parse_row (map split (split_on "010" raw)) = Some rows
       /\ forall a, dict_get a tg = dict_get a (rev rows).
Proof.
  intros Hp. destruct (parse_targets_rows raw tg Hp) as (rows & Hm & ->).
  destruct (dict_of_spec rows) as [Hn Hg]. split; [exact Hn|]. now exists rows.
Qed.

Lemma parse_row_None row :
  parse_row row = None <->
  length row <> 2%nat \/ exists a b, row = [a; b] /\ float_of_str b = None.
Proof.
  destruct row as [|a [|b [|c row]]]; simpl.
  - split; [left; discriminate | reflexivity].
  - split; [left; discriminate | reflexivity].
  - unfold mbind, option_bind. destruct (float_of_str b) eqn:F.
    + split; [discriminate|]. intros [Hl | (a' & b' & [= -> ->] & F')];
        [now contradict Hl | congruence].
    + split; [|reflexivity]. intros _. right. now exists a, b.
  - split; [left; discriminate | reflexivity].
Qed.

Lemma split_on_trailing sep s :
  exists pieces, pieces <> [] /\ split_on sep (s ++ String sep "") = pieces ++ [""].
Proof.
  induction s as [|c s (pieces & Hne & IH)]; simpl.
  - rewrite Ascii.eqb_refl. now exists [""].
  - rewrite IH. destruct (Ascii.eqb c sep).
    + now exists ("" :: pieces).
    + destruct pieces as [|p ps]; [congruence|]. now exists (String c p :: ps).
Qed.

(** X4.  The targets are a format error exactly when some line does not
    split into two words or has a second word that [float] refuses.  In
    particular an empty option and an option ending in a newline are
    format errors. *)
Theorem targets_format_errors raw :
  (parse_targets raw = None <->
   exists line,
     In line (split_on "010" raw)
     /\ (length (split line) <> 2%nat
         \/ exists a b, split line = [a; b] /\ float_of_str b = None))
  /\ parse_targets "" = None
  /\ parse_targets (raw ++ String "010" "") = None.
Proof.
  assert (Hiff : forall text,
    parse_targets text = None <->
    exists line,
      In line (split_on "010" text)
      /\ (length (split line) <> 2%nat
          \/ exists a b, split line = [a; b] /\ float_of_str b = None)).
  { intros text. unfold parse_targets.
    destruct (mapM parse_row (map split (split_on "010" text))) as [rows|] eqn:M;
      simpl.
    - split; [discriminate|]. intros (line & Hin & Hbad).
      assert (E : mapM parse_row (map split (split_on "010" text)) = None).
      { apply mapM_None_iff. exists (split line). split; [now apply in_map|].
        now apply parse_row_None. }
      congruence.
    - split; [|reflexivity]. intros _. apply mapM_None_iff in M.
      destruct M as (ws & Hin & Hrow). apply in_map_iff in Hin.
      destruct Hin as (line & <- & Hin). exists line. split; [exact Hin|].
      now apply parse_row_None. }
  split; [apply Hiff | split].
  - reflexivity.
  - apply Hiff. exists "". split; [|left; discriminate].
    destruct (split_on_trailing "010" raw) as (pieces & _ & ->).
    apply in_or_app. right. now left.
Qed.
End Parsing.

Lemma parsed_targets_are_words_witness :
  "BTC" <> "" /\ Cases.has_space "BTC" = false.
Proof.
  exact (proj2 (parsed_targets_are_words (H := decimal_builtins)
                  (String.concat Demo.newline ["BTC 50"; "USDT 50"])
                  [("BTC", 50%float); ("USDT", 50%float)] eq_refl)
               "BTC" 50%float (or_introl eq_refl)).
Defined.

(** BTC on two lines: the first line's 40 is dropped, and the total is the
    100 of the last two. *)
Lemma repeated_asset_last_line_wins_witness :
  List.NoDup ["BTC"; "USDT"]
  /\ parse_targets (H := decimal_builtins)
       (String.concat Demo.newline ["BTC 40"; "USDT 50"; "BTC 50"])
     = Some [("BTC", 50%float); ("USDT", 50%float)].
Proof.
  split; [|reflexivity].
  exact (proj1 (repeated_asset_last_line_wins (H := decimal_builtins)
                  (String.concat Demo.newline ["BTC 40"; "USDT 50"; "BTC 50"])
                  [("BTC", 50%float); ("USDT", 50%float)] eq_refl)).
Defined.

(** ** Options that are missing or malformed (lines 22-50) *)

Section Options.
Context `{Builtins}.
Variable make_portfolio :
  list (string * float) -> Exchange -> float -> string -> prog float (Portfolio float).
Variable executor_run :
  Portfolio float -> Exchange -> bool -> bool -> Z -> string ->
  prog float (ExecutionResult float).

(** X5.  A section without [targets] is not reported as a format error:
    the [KeyError] of line 23 is not the exception the [try] block catches,
    so it escapes with nothing logged and nothing asked of the venue. *)
Theorem missing_targets_escape (cfg : section) name trade force max_orders cancel
    log_dir mode (w : env float) :
  cfg !! "targets" = None ->
  w [] unit (OpenLog log_dir name) = inr tt ->
  run w (balancing make_portfolio executor_run cfg name trade force max_orders cancel
                   log_dir mode) []
  = ([EvCall (OpenLog log_dir name)], Raised (KeyError "targets")).
Proof.
  intros Hraw Hlog. unfold balancing, set_up_logger, perform, subscript. step.
  rewrite Hlog, Hraw. reflexivity.
Qed.

(** X6.  When [exchange], [api_key] or [api_secret] is missing, the run
    ends with the [KeyError] of the first one missing, in that order,
    before the exchange is constructed: the venue is never contacted. *)
Theorem missing_connection_option (cfg : section) name trade force max_orders cancel
    log_dir mode raw tg (w : env float) k :
  cfg !! "targets" = Some raw ->
  parse_targets raw = Some tg ->
  PrimFloat.eqb (total_target tg) 100 = true ->
  w [] unit (OpenLog log_dir name) = inr tt ->
  Cases.first_missing cfg ["exchange"; "api_key"; "api_secret"] = Some k ->
  run w (balancing make_portfolio executor_run cfg name trade force max_orders cancel
                   log_dir mode) []
  = ([EvCall (OpenLog log_dir name)], Raised (KeyError k)).
Proof.
  intros Hraw Hparse Hsum Hlog Hk.
  rewrite (balancing_validated _ _ cfg name trade force max_orders cancel log_dir mode
                               raw tg w Hraw Hparse), Hlog, Hsum.
  unfold connect_and_rebalance, subscript. unfold Cases.first_missing in Hk.
  simpl in Hk.
  destruct (cfg !! "exchange"); [|injection Hk as <-; reflexivity].
  destruct (cfg !! "api_key"); [|injection Hk as <-; reflexivity].
  destruct (cfg !! "api_secret"); [discriminate|injection Hk as <-; reflexivity].
Qed.

Lemma reaches_rebalance (cfg : section) name trade force max_orders cancel log_dir mode
    tg (w : env float) venue key secret ex cancelled :
  Cases.reaches_line_49 w cfg name log_dir tg venue key secret ex cancel cancelled ->
  run w (balancing make_portfolio executor_run cfg name trade force max_orders cancel
                   log_dir mode) []
  = run w (rebalance make_portfolio executor_run cfg tg (valuebase_of cfg) ex trade
                     force max_orders mode)
        (Cases.history_at_line_49 name log_dir tg venue key secret ex cancel cancelled).
Proof.
  intros (Hlog & (raw & Hraw & Hparse) & Hsum & He & Hk & Hs & Hex & Hcancel).
  rewrite (balancing_validated _ _ cfg name trade force max_orders cancel log_dir mode
                               raw tg w Hraw Hparse), Hlog, Hsum.
  rewrite (connect_runs _ _ cfg tg trade force max_orders cancel mode w _
                        venue key secret ex He Hk Hs Hex).
  unfold Cases.history_at_line_49, Cases.info in *. destruct cancel; simpl.
  - rewrite (Hcancel eq_refl). reflexivity.
  - reflexivity.
Qed.

(** X7.  The threshold is read only at line 49: a section whose
    [threshold] is missing ([KeyError]) or refused by [float]
    ([ValueError]) fails after the exchange has been constructed and,
    with [cancel] set, after the open orders have been cancelled; nothing
    is valued or planned. *)
Theorem bad_threshold_fails_after_connecting (cfg : section) name trade force max_orders
    cancel log_dir mode tg (w : env float) venue key secret ex cancelled err :
  Cases.reaches_line_49 w cfg name log_dir tg venue key secret ex cancel cancelled ->
  Cases.threshold_error cfg = Some err ->
  run w (balancing make_portfolio executor_run cfg name trade force max_orders cancel
                   log_dir mode) []
  = (Cases.history_at_line_49 name log_dir tg venue key secret ex cancel cancelled,
     Raised err).
Proof.
  intros Hreach Herr. rewrite (reaches_rebalance _ _ _ _ _ _ _ _ _ _ _ _ _ _ _ Hreach).
  unfold Cases.threshold_error in Herr. unfold rebalance, subscript, to_float.
  destruct (cfg !! "threshold") as [ts|]; [|injection Herr as <-; reflexivity].
  step. destruct (float_of_str ts); [discriminate|injection Herr as <-; reflexivity].
Qed.

(** X8.  [--max_orders] is not checked by the argument parser: the text
    given reaches [balancing] as it is, and when [int] refuses it the run
    fails with [ValueError] at line 50, after the exchange has been
    constructed (and the open orders cancelled, with [cancel] set) and
    before any valuation. *)
Theorem bad_max_orders_fails_after_connecting (cfg : section) name trade force given
    cancel log_dir mode tg (w : env float) venue key secret ex cancelled ts thr :
  Cases.reaches_line_49 w cfg name log_dir tg venue key secret ex cancel cancelled ->
  cfg !! "threshold" = Some ts ->
  float_of_str ts = Some thr ->
  int_of_str given = None ->
  (forall sections cl args,
      parse_args sections cl = Some args ->
      opt_max_orders cl = Some given ->
      max_orders args = VStr given)
  /\ run w (balancing make_portfolio executor_run cfg name trade force (VStr given) cancel
                      log_dir mode) []
     = (Cases.history_at_line_49 name log_dir tg venue key secret ex cancel cancelled,
        Raised ValueError).
Proof.
  intros Hreach Hts Hthr Hint. split.
  - intros sections cl args Hp Hgiven. unfold parse_args in Hp.
    destruct (match opt_mode cl with
              | Some m => if one_of mode_choices m then Some m else None
              | None => Some "mid"
              end); bind_in Hp; [|discriminate].
    destruct (match opt_portfolio cl with
              | Some [] => None
              | Some ps => if forallb (one_of sections) ps then Some ps else None
              | None => Some sections
              end); bind_in Hp; [|discriminate].
    injection Hp as <-. simpl. now rewrite Hgiven.
  - rewrite (reaches_rebalance _ _ _ _ _ _ _ _ _ _ _ _ _ _ _ Hreach).
    rewrite (rebalance_runs _ _ cfg tg _ ex trade force _ mode w _ ts Hts), Hthr.
    unfold to_int. rewrite Hint. reflexivity.
Qed.
End Options.

Lemma missing_targets_escape_witness :
  Demo.engine_balancing Demo.venue Cases.no_targets "p" true false true
  = ([EvCall (OpenLog "logs" "p")], Raised (KeyError "targets")).
Proof.
  exact (missing_targets_escape (H := decimal_builtins) Engine.make_portfolio
           (Engine.executor_run Demo.pricing Demo.no_fee) Cases.no_targets "p"
           true false (VInt 5) true "logs" "mid" Demo.venue eq_refl eq_refl).
Defined.

Lemma missing_connection_option_witness :
  Demo.engine_balancing Demo.venue Cases.no_api_key "p" true false true
  = ([EvCall (OpenLog "logs" "p")], Raised (KeyError "api_key")).
Proof.
  exact (missing_connection_option (H := decimal_builtins) Engine.make_portfolio
           (Engine.executor_run Demo.pricing Demo.no_fee) Cases.no_api_key "p"
           true false (VInt 5) true "logs" "mid"
           (String.concat Demo.newline ["BTC 50"; "USDT 50"])
           [("BTC", 50%float); ("USDT", 50%float)] Demo.venue "api_key"
           eq_refl eq_refl eq_refl eq_refl eq_refl).
Defined.

Lemma demo_reaches_line_49 (cfg : section) :
  cfg !! "targets" = Some (String.concat Demo.newline ["BTC 50"; "USDT 50"]) ->
  cfg !! "exchange" = Some "binance" ->
  cfg !! "api_key" = Some "k" ->
  cfg !! "api_secret" = Some "s" ->
  Cases.reaches_line_49 (H := decimal_builtins) Demo.venue cfg "p" "logs"
    [("BTC", 50%float); ("USDT", 50%float)] "binance" "k" "s"
    {| exchange_name := "binance" |} true
    [ {| oo_symbol := "BTC/USDT"; oo_id := "17" |} ].
Proof.
  intros Ht He Hk Hs. repeat split; try assumption; try reflexivity.
  eexists. split; [exact Ht | reflexivity].
Defined.

(** With [cancel] set, the stale order is cancelled before the missing
    threshold is noticed. *)
Lemma bad_threshold_fails_after_connecting_witness :
  Demo.engine_balancing Demo.venue Cases.no_threshold "p" true false true
  = ([EvCall (OpenLog "logs" "p");
      EvCall (NewExchange "binance" ["BTC"; "USDT"] "k" "s");
      EvLog INFO (Connected "binance");
      EvLog INFO CancellingOpenOrders;
      EvCall (CancelOrders {| exchange_name := "binance" |});
      EvLog INFO (CancelledOrder "BTC/USDT" "17")],
     Raised (KeyError "threshold")).
Proof.
  exact (bad_threshold_fails_after_connecting (H := decimal_builtins)
           Engine.make_portfolio (Engine.executor_run Demo.pricing Demo.no_fee)
           Cases.no_threshold "p" true false (VInt 5) true "logs" "mid" _ Demo.venue
           _ _ _ _ _ (KeyError "threshold")
           (demo_reaches_line_49 Cases.no_threshold eq_refl eq_refl eq_refl eq_refl)
           eq_refl).
Defined.

Lemma bad_max_orders_fails_after_connecting_witness :
  run Demo.venue
      (balancing (H := decimal_builtins) Engine.make_portfolio
                 (Engine.executor_run Demo.pricing Demo.no_fee)
                 Demo.balanced_5050 "p" true false (VStr "2.5") true "logs" "mid") []
  = ([EvCall (OpenLog "logs" "p");
      EvCall (NewExchange "binance" ["BTC"; "USDT"] "k" "s");
      EvLog INFO (Connected "binance");
      EvLog INFO CancellingOpenOrders;
      EvCall (CancelOrders {| exchange_name := "binance" |});
      EvLog INFO (CancelledOrder "BTC/USDT" "17")],
     Raised ValueError).
Proof.
  exact (proj2 (bad_max_orders_fails_after_connecting (H := decimal_builtins)
           Engine.make_portfolio (Engine.executor_run Demo.pricing Demo.no_fee)
           Demo.balanced_5050 "p" true false "2.5" true "logs" "mid" _ Demo.venue
           _ _ _ _ _ "1" 1%float
           (demo_reaches_line_49 Demo.balanced_5050 eq_refl eq_refl eq_refl eq_refl)
           eq_refl eq_refl eq_refl)).
Defined.

(** ** Valuation report, execution and final report (lines 54-123) *)

Section Reporting.
Context `{Builtins}.
Variable make_portfolio :
  list (string * float) -> Exchange -> float -> string -> prog float (Portfolio float).
Variable executor_run :
  Portfolio float -> Exchange -> bool -> bool -> Z -> string ->
  prog float (ExecutionResult float).

Lemma log_balances_next tg (p : Portfolio float) cur curs (w : env float) h :
  run w (log_balances tg p (cur :: curs)) h =
  match Cases.balance_line tg p cur with
  | Some line => run w (log_balances tg p curs) (h ++ [Cases.info line])
  | None => (h, Raised (KeyError cur))
  end.
Proof.
  unfold Cases.balance_line. simpl. unfold getitem, mbind, option_bind, prog_bind.
  destruct (dict_get cur (balances p)) as [bal|]; [|reflexivity].
  destruct (dict_get cur (balances_pct p)) as [pct|]; [|reflexivity].
  destruct (dict_get cur tg) as [tgt|]; reflexivity.
Qed.

Lemma log_balances_written tg (p : Portfolio float) curs lines (w : env float) h :
  mapM (Cases.balance_line tg p) curs = Some lines ->
  run w (log_balances tg p curs) h = (h ++ map Cases.info lines, Returned tt).
Proof.
  intros M. apply mapM_Some in M. revert h.
  induction M as [|cur line curs lines L _ IH]; intros h.
  - simpl. now rewrite app_nil_r.
  - rewrite log_balances_next, L, IH. simpl. now rewrite <- app_assoc.
Qed.

Lemma log_balances_key_error tg (p : Portfolio float) curs (w : env float) h :
  mapM (Cases.balance_line tg p) curs = None ->
  exists written cur,
    In cur curs
    /\ Cases.balance_line tg p cur = None
    /\ run w (log_balances tg p curs) h = (h ++ map Cases.info written, Raised (KeyError cur)).
Proof.
  revert h. induction curs as [|cur curs IH]; intros h M; [discriminate M|].
  destruct (Cases.balance_line tg p cur) as [line|] eqn:L.
  - assert (M' : mapM (Cases.balance_line tg p) curs = None).
    { apply mapM_None_iff. apply mapM_None_iff in M. destruct M as (c & [<-|Hc] & Lc).
      - congruence.
      - now exists c. }
    destruct (IH (h ++ [Cases.info line]) M') as (written & c & Hc & Lc & Hrun).
    exists (line :: written), c. repeat split; [now right | exact Lc |].
    rewrite log_balances_next, L, Hrun. simpl. now rewrite <- app_assoc.
  - exists [], cur. repeat split; [now left | exact L |].
    rewrite log_balances_next, L. simpl. now rewrite app_nil_r.
Qed.

(** X9.  When the venue reports a balance in a currency that has no
    target, line 58 raises [KeyError] while the current portfolio is being
    logged: the run ends there, and [Executor.run] is never called. *)
Theorem holding_without_target_aborts tg thr (p : Portfolio float) ex trade force n mode
    (w : env float) h cur :
  In cur (keys (balances p)) ->
  dict_get cur tg = None ->
  exists written missing,
    In missing (keys (balances p))
    /\ Cases.balance_line tg p missing = None
    /\ run w (execute_and_report executor_run tg thr p ex trade force n mode) h
       = (h ++ Cases.info CurrentPortfolio :: map Cases.info written,
          Raised (KeyError missing)).
Proof.
  intros Hin Hmiss.
  assert (M : mapM (Cases.balance_line tg p) (keys (balances p)) = None).
  { apply mapM_None_iff. exists cur. split; [exact Hin|].
    unfold Cases.balance_line, mbind, option_bind. rewrite Hmiss.
    destruct (dict_get cur (balances p)); [|reflexivity].
    now destruct (dict_get cur (balances_pct p)). }
  destruct (log_balances_key_error tg p _ w (h ++ [Cases.info CurrentPortfolio]) M)
    as (written & missing & Hm & Hline & Hrun).
  exists written, missing. repeat split; [exact Hm | exact Hline |].
  unfold execute_and_report, log. step.
  change (run w (bind (log_balances tg p (keys (balances p))) ?k) ?hh)
    with (run w (bind (log_balances tg p (keys (balances p))) k) hh).
  rewrite run_bind. unfold Cases.info in Hrun at 1. rewrite Hrun.
  now rewrite <- app_assoc.
Qed.

(** X10.  Once the current portfolio is logged, [Executor.run] is called
    whether or not the portfolio needs balancing: the test of line 79
    comes after the call, so it only decides what is reported. *)
Theorem executor_runs_before_the_check tg thr (p : Portfolio float) ex trade force n mode
    (w : env float) h lines :
  mapM (Cases.balance_line tg p) (keys (balances p)) = Some lines ->
  run w (execute_and_report executor_run tg thr p ex trade force n mode) h
  = run w (bind (executor_run p ex force trade n mode)
                (fun res => report tg thr p res trade force))
        (h ++ map Cases.info
                  (CurrentPortfolio :: lines
                   ++ [Blank; TotalValue (valuation_quote p) (quote_currency p)])).
Proof.
  intros M. unfold execute_and_report, log. step. rewrite run_bind.
  rewrite (log_balances_written tg p _ lines w _ M). simpl.
  rewrite map_app. simpl. rewrite <- !app_assoc. reflexivity.
Qed.

(** X11.  For a portfolio that needs no balancing, without [force], the
    report is the two error measures and "No balancing needed": nothing
    of the result is shown, not even orders it lists as submitted. *)
Theorem report_when_nothing_needed tg thr (p : Portfolio float) res trade
    (w : env float) h :
  needs_balancing p = false ->
  run w (report tg thr p res trade false) h
  = (h ++ map Cases.info
            [RmsError (balance_rms_error (initial_portfolio res)) thr;
             MaxError (balance_max_error (initial_portfolio res)) thr;
             NoBalancingNeeded],
     Returned tt).
Proof.
  intros Hn. unfold report, log. step. rewrite Hn. simpl.
  rewrite <- !app_assoc. reflexivity.
Qed.

(** X12.  When the result has no proposed portfolio, the report stops at
    "Could not calculate a better portfolio": no fee and no order is
    shown, submitted or not. *)
Theorem report_without_proposal tg thr (p : Portfolio float) res trade force
    (w : env float) h :
  needs_balancing p = true \/ force = true ->
  proposed_portfolio res = None ->
  run w (report tg thr p res trade force) h
  = (h ++ map Cases.info
            [RmsError (balance_rms_error (initial_portfolio res)) thr;
             MaxError (balance_max_error (initial_portfolio res)) thr;
             BalancingNeeded force; ProposedPortfolio; NoBetterPortfolio],
     Returned tt).
Proof.
  intros Hcase Hnone. unfold report, log. step.
  assert (E : negb (needs_balancing p) && negb force = false).
  { destruct Hcase as [-> | ->]; [reflexivity | apply andb_false_r]. }
  rewrite E, Hnone. simpl. rewrite <- !app_assoc. reflexivity.
Qed.

(** X13.  With a proposed portfolio the report is complete: the proposed
    balances, its value and error measures, the total fee, and then the
    orders.  In a live run these are the submitted orders followed by the
    failed ones, each in the order of the result, and the list of
    proposed orders is not shown; in a dry run they are the proposed
    orders. *)
Theorem report_with_proposal tg thr (p proposed : Portfolio float) res trade force
    (w : env float) h lines :
  needs_balancing p = true \/ force = true ->
  proposed_portfolio res = Some proposed ->
  mapM (Cases.balance_line tg proposed) (keys (balances proposed)) = Some lines ->
  run w (report tg thr p res trade force) h
  = (h ++ map Cases.info
            ([RmsError (balance_rms_error (initial_portfolio res)) thr;
              MaxError (balance_max_error (initial_portfolio res)) thr;
              BalancingNeeded force; ProposedPortfolio]
             ++ lines
             ++ [TotalValue (valuation_quote proposed) (quote_currency proposed);
                 RmsError (balance_rms_error proposed) thr;
                 MaxError (balance_max_error proposed) thr;
                 TotalFees (total_fee res) (quote_currency proposed);
                 Blank; OrdersHeading]
             ++ Cases.order_lines trade res),
     Returned tt).
Proof.
  intros Hcase Hsome M. unfold report, log. step.
  assert (E : negb (needs_balancing p) && negb force = false).
  { destruct Hcase as [-> | ->]; [reflexivity | apply andb_false_r]. }
  rewrite E, Hsome. simpl. rewrite run_bind.
  rewrite (log_balances_written tg proposed _ lines w _ M). simpl.
  unfold report_orders, Cases.order_lines. destruct trade.
  - step. rewrite run_bind, !log_each_run. simpl.
    repeat (rewrite ?map_app, ?map_map, <- ?app_assoc; simpl). reflexivity.
  - rewrite log_each_run.
    repeat (rewrite ?map_app, ?map_map, <- ?app_assoc; simpl). reflexivity.
Qed.
End Reporting.

Local Open Scope float_scope.

Lemma holding_without_target_aborts_witness :
  exists written missing,
    In missing ["BTC"; "DOGE"; "USDT"]
    /\ Cases.balance_line [("BTC", 50%float); ("USDT", 50%float)]
                          Cases.stray_holding missing = None
    /\ run Demo.venue
           (execute_and_report (Engine.executor_run Demo.pricing Demo.no_fee)
              [("BTC", 50%float); ("USDT", 50%float)] 1%float Cases.stray_holding
              {| exchange_name := "binance" |} true false 5 "mid") []
       = ([] ++ Cases.info CurrentPortfolio :: map Cases.info written,
          Raised (KeyError missing)).
Proof.
  exact (holding_without_target_aborts (Engine.executor_run Demo.pricing Demo.no_fee)
           [("BTC", 50%float); ("USDT", 50%float)] 1%float Cases.stray_holding
           {| exchange_name := "binance" |} true false 5%Z "mid" Demo.venue [] "DOGE"
           (or_intror (or_introl eq_refl)) eq_refl).
Defined.

Lemma executor_runs_before_the_check_witness :
  run Demo.venue
      (execute_and_report (Engine.executor_run Demo.pricing Demo.no_fee)
         [("BTC", 50%float); ("USDT", 50%float)] 1%float Demo.within_threshold
         {| exchange_name := "binance" |} true false 5 "mid") []
  = run Demo.venue
        (bind (Engine.executor_run Demo.pricing Demo.no_fee Demo.within_threshold
                 {| exchange_name := "binance" |} false true 5 "mid")
              (fun res => report [("BTC", 50%float); ("USDT", 50%float)] 1%float
                                 Demo.within_threshold res true false))
        (map Cases.info
             [CurrentPortfolio;
              BalanceLine "BTC" 1 50 50; BalanceLine "USDT" 10000 50 50;
              Blank; TotalValue 20000 "USDT"]).
Proof.
  exact (executor_runs_before_the_check (Engine.executor_run Demo.pricing Demo.no_fee)
           [("BTC", 50%float); ("USDT", 50%float)] 1%float Demo.within_threshold
           {| exchange_name := "binance" |} true false 5%Z "mid" Demo.venue []
           [BalanceLine "BTC" 1 50 50; BalanceLine "USDT" 10000 50 50] eq_refl).
Defined.

(** A result that lists a filled and a failed order is not reported when
    the portfolio needs no balancing. *)
Lemma report_when_nothing_needed_witness :
  run Demo.venue
      (report [("BTC", 50%float); ("USDT", 50%float)] 1%float Demo.within_threshold
              (Cases.mixed_result None) true false) []
  = (map Cases.info [RmsError 0 1; MaxError 0 1; NoBalancingNeeded], Returned tt).
Proof.
  exact (report_when_nothing_needed [("BTC", 50%float); ("USDT", 50%float)] 1%float
           Demo.within_threshold (Cases.mixed_result None) true Demo.venue [] eq_refl).
Defined.

Lemma report_without_proposal_witness :
  run Demo.venue
      (report [("BTC", 50%float); ("USDT", 50%float)] 1%float Demo.within_threshold
              (Cases.mixed_result None) true true) []
  = (map Cases.info [RmsError 0 1; MaxError 0 1; BalancingNeeded true;
                     ProposedPortfolio; NoBetterPortfolio],
     Returned tt).
Proof.
  exact (report_without_proposal [("BTC", 50%float); ("USDT", 50%float)] 1%float
           Demo.within_threshold (Cases.mixed_result None) true true Demo.venue []
           (or_intror eq_refl) eq_refl).
Defined.

Lemma report_with_proposal_witness :
  run Demo.venue
      (report [("BTC", 50%float); ("USDT", 50%float)] 1%float Demo.within_threshold
              (Cases.mixed_result (Some Demo.within_threshold)) true true) []
  = (map Cases.info
         [RmsError 0 1; MaxError 0 1; BalancingNeeded true; ProposedPortfolio;
          BalanceLine "BTC" 1 50 50; BalanceLine "USDT" 10000 50 50;
          TotalValue 20000 "USDT"; RmsError 0 1; MaxError 0 1; TotalFees 0 "USDT";
          Blank; OrdersHeading;
          Submitted Cases.sell_btc;
          Failed (Cases.buy_eth, "REJECTED: insufficient balance")],
     Returned tt).
Proof.
  exact (report_with_proposal [("BTC", 50%float); ("USDT", 50%float)] 1%float
           Demo.within_threshold Demo.within_threshold
           (Cases.mixed_result (Some Demo.within_threshold)) true true Demo.venue []
           [BalanceLine "BTC" 1 50 50; BalanceLine "USDT" 10000 50 50]
           (or_intror eq_refl) eq_refl eq_refl).
Defined.

Local Close Scope float_scope.

(** ** What the driver itself asks of the world *)

Section Frame.
Context `{Builtins}.
Variable make_portfolio :
  list (string * float) -> Exchange -> float -> string -> prog float (Portfolio float).
Variable executor_run :
  Portfolio float -> Exchange -> bool -> bool -> Z -> string ->
  prog float (ExecutionResult float).

(** X14.  The only calls [balancing] makes by itself are the opening of
    the log file, the construction of the exchange and, with [cancel] set,
    the cancellation of open orders: whatever else appears in a run comes
    from [Portfolio.make_portfolio] or [Executor.run].  So a kind of event
    that is neither a log record nor one of these calls, and that the two
    collaborators never produce, is in no run; without [cancel], this
    holds of cancellations. *)
Theorem driver_calls_only_log_connect_cancel (bad : event float -> bool)
    (cfg : section) name trade force max_orders cancel log_dir mode (w : env float) :
  (forall l m, bad (EvLog l m) = false) ->
  (forall dir p, bad (EvCall (OpenLog dir p)) = false) ->
  (forall venue assets key secret,
      bad (EvCall (NewExchange venue assets key secret)) = false) ->
  (cancel = true -> forall ex, bad (EvCall (CancelOrders ex)) = false) ->
  (forall tg ex thr vb, never bad (make_portfolio tg ex thr vb)) ->
  (forall p ex f t n m, never bad (executor_run p ex f t n m)) ->
  existsb bad
    (fst (run w (balancing make_portfolio executor_run cfg name trade force max_orders
                           cancel log_dir mode) []))
  = false.
Proof.
  intros Hlog Hopen Hnew Hcancel Hmp Her.
  rewrite never_run; [reflexivity|].
  unfold balancing, set_up_logger, perform, subscript. step.
  split; [apply Hopen|]. intros _.
  destruct (cfg !! "targets") as [raw|]; simpl; [|exact I].
  destruct (parse_targets raw) as [tg|]; simpl; [|split; [apply Hlog | exact I]].
  destruct (PrimFloat.eqb (total_target tg) 100); simpl;
    [|split; [apply Hlog | exact I]].
  unfold connect_and_rebalance, subscript.
  destruct (cfg !! "exchange"); simpl; [|exact I].
  destruct (cfg !! "api_key"); simpl; [|exact I].
  destruct (cfg !! "api_secret"); simpl; [|exact I].
  split; [apply Hnew|]. intros ex. split; [apply Hlog|].
  apply never_bind.
  { destruct cancel; [|exact I]. unfold cancel_open_orders, perform. step.
    split; [apply Hlog|]. split; [now apply Hcancel|]. intros l.
    induction l; simpl; [exact I | split; [apply Hlog | assumption]]. }
  intros _. unfold rebalance, to_float, to_int, subscript.
  destruct (cfg !! "threshold") as [ts|]; step; [|exact I].
  destruct (float_of_str ts) as [thr|]; simpl; [|exact I].
  assert (G : forall n, never bad
                (value_and_execute make_portfolio executor_run tg ex thr n
                                   (valuebase_of cfg) trade force mode)).
  { intros n. unfold value_and_execute. apply never_bind; [apply Hmp|]. intros p.
    unfold execute_and_report. step. split; [apply Hlog|].
    apply never_bind; [now apply never_log_balances|]. intros _. simpl.
    do 2 (split; [apply Hlog|]).
    apply never_bind; [apply Her | intros res; now apply never_report]. }
  destruct max_orders as [z|given]; simpl; [apply G|].
  destruct (int_of_str given); simpl; [apply G | exact I].
Qed.
End Frame.

Lemma never_engine_valuation (bad : event float -> bool) tg ex thr vb :
  (forall e, bad (EvCall (GetBalances e)) = false) ->
  (forall e a q, bad (EvCall (GetPrice e a q)) = false) ->
  never bad (Engine.make_portfolio (A := float) tg ex thr vb).
Proof.
  intros Hb Hp. unfold Engine.make_portfolio, perform. step.
  split; [apply Hb|]. intros bals. apply never_bind.
  - induction (Engine.asset_union (keys bals) (keys tg)) as [|a assets IH];
      simpl; [exact I|].
    destruct (String.eqb a vb); [exact IH|]. step. split; [apply Hp|]. intros x.
    apply never_bind; [exact IH | intros; exact I].
  - intros prices. unfold lift. destruct (Engine.Value bals prices vb tg thr); exact I.
Qed.

Lemma never_engine_submit (bad : event float -> bool) ex (o : Order float) attempts :
  (forall e o', bad (EvCall (SubmitOrder e o')) = false) ->
  never bad (Engine.submit ex o attempts).
Proof.
  intros Hs. induction attempts as [|k IH]; simpl; [exact I|].
  split; [apply Hs|]. intros r. destruct r; try exact I. exact IH.
Qed.

Lemma never_engine_submit_all (bad : event float -> bool) ex (os : list (Order float)) :
  (forall e o, bad (EvCall (SubmitOrder e o)) = false) ->
  forall flag, never bad (Engine.submit_all ex os flag).
Proof.
  intros Hs. induction os as [|o os IH]; intros flag; [exact I|].
  cbn [Engine.submit_all]. unfold mbind, prog_bind.
  destruct (negb (Engine.is_sell o) && flag).
  - apply never_bind; [apply IH | intros [ok ko]; exact I].
  - apply never_bind; [now apply never_engine_submit|].
    intros r. destruct r; (apply never_bind; [apply IH | intros [ok ko]; exact I]).
Qed.

Lemma never_engine_execution (bad : event float -> bool) pricing fees p ex f t n m :
  (forall e o, bad (EvCall (SubmitOrder e o)) = false) ->
  never bad (Engine.executor_run (A := float) pricing fees p ex f t n m).
Proof.
  intros Hs. unfold Engine.executor_run.
  destruct (mode_of_string m) as [md|]; [|exact I].
  unfold Engine.Execute. destruct (negb (needs_balancing p) && negb f); [exact I|].
  unfold lift, mbind, prog_bind.
  destruct (Engine.Plan pricing fees p (targets p) (Z.to_nat n) md f) as [e|pl];
    [exact I|]. cbn [bind]. destruct t; [|exact I].
  apply never_bind; [now apply never_engine_submit_all | intros [ok ko]; exact I].
Qed.

(** Without [--cancel], a live run on the demonstration venue cancels
    nothing. *)
Lemma driver_calls_only_log_connect_cancel_witness :
  existsb Cases.is_cancellation
    (fst (Demo.engine_balancing Demo.venue Demo.balanced_5050 "p" true false false))
  = false.
Proof.
  refine (driver_calls_only_log_connect_cancel (H := decimal_builtins)
            Engine.make_portfolio (Engine.executor_run Demo.pricing Demo.no_fee)
            Cases.is_cancellation Demo.balanced_5050 "p" true false (VInt 5) false
            "logs" "mid" Demo.venue _ _ _ _ _ _); try reflexivity.
  - discriminate.
  - intros. now apply never_engine_valuation.
  - intros. now apply never_engine_execution.
Defined.

(** ** The command line and the pool, continued (lines 139-171) *)



Lemma dict_get_key {V : Type} (d : list (string * V)) k :
  In k (keys d) -> exists v, dict_get k d = Some v /\ In (k, v) d.
Proof.
  induction d as [|[k' v'] d IH]; simpl; [contradiction|].
  destruct (String.eqb k k') eqn:E.
  - apply String.eqb_eq in E. subst k'. intros _. exists v'. split; [reflexivity | now left].
  - intros [->|Hk]; [now rewrite String.eqb_refl in E|].
    destruct (IH Hk) as (v & Hv & Hin). exists v. split; [exact Hv | now right].
Qed.

(** X16.  Every task handed to the pool carries the flags of the command
    line unchanged, the name of a section and the options of that very
    section (the first of that name). *)
Theorem tasks_carry_their_section (p_config : config) (args : Args) (t : Task) :
  In t (tasks p_config args) ->
  In (task_name t, task_config t) p_config
  /\ dict_get (task_name t) p_config = Some (task_config t)
  /\ task_trade t = trade args
  /\ task_force t = force args
  /\ task_max_orders t = max_orders args
  /\ task_cancel t = cancel args
  /\ task_log_dir t = log_dir args
  /\ task_mode t = mode args.
Proof.
  unfold tasks. intros Hin. apply in_map_iff in Hin.
  destruct Hin as ([proxy p] & <- & Hin). simpl.
  assert (Hp : In p (sections p_config) /\ proxy = default ∅ (dict_get p p_config)).
  { revert Hin. generalize (sections p_config).
    induction l as [|q l IH]; simpl; [contradiction|].
    intros [[= <- <-]|Hin]; [split; [now left | reflexivity]|].
    destruct (IH Hin). split; [now right | assumption]. }
  destruct Hp as [Hp ->].
  destruct (dict_get_key p_config p Hp) as (v & Hv & Hvin).
  rewrite Hv. simpl. repeat split; assumption.
Qed.

Section PoolRuns.
Context `{Builtins}.
Variable make_portfolio :
  list (string * float) -> Exchange -> float -> string -> prog float (Portfolio float).
Variable executor_run :
  Portfolio float -> Exchange -> bool -> bool -> Z -> string ->
  prog float (ExecutionResult float).
Variable world : string -> env float.
Variable cpu_count : positive.

Abbreviation run_task := (run_task make_portfolio executor_run world).
Abbreviation run_chunk := (run_chunk make_portfolio executor_run world).
Abbreviation returns := (returns make_portfolio executor_run world).
Abbreviation starmap := (starmap make_portfolio executor_run world cpu_count).
Abbreviation main := (main make_portfolio executor_run world cpu_count).

Lemma run_chunk_cons t ts :
  run_chunk (t :: ts) =
  match run_outcome (run_task t) with
  | Returned _ => (run_task t :: fst (run_chunk ts), snd (run_chunk ts))
  | Raised e => ([run_task t], ChunkRaised e)
  | Exited code => ([run_task t], WorkerExited code)
  end.
Proof.
  cbn [Main.run_chunk]. cbv zeta.
  destruct (run_outcome (run_task t)); [|reflexivity..].
  now destruct (run_chunk ts).
Qed.

(** X17.  Within one chunk the tasks run in order up to the first run that
    does not return: when a run lets an exception escape or exits, the
    tasks after it in the chunk are not run at all. *)
Theorem chunk_stops_at_first_failure (ts : list Task) :
  match run_chunk ts with
  | (records, ChunkDone) => records = map run_task ts /\ Forall returns ts
  | (records, ChunkRaised e) =>
      exists before t after,
        ts = before ++ t :: after
        /\ Forall returns before
        /\ run_outcome (run_task t) = Raised e
        /\ records = map run_task (before ++ [t])
  | (records, WorkerExited code) =>
      exists before t after,
        ts = before ++ t :: after
        /\ Forall returns before
        /\ run_outcome (run_task t) = Exited code
        /\ records = map run_task (before ++ [t])
  end.
Proof.
  induction ts as [|t ts IH]; [split; [reflexivity | constructor]|].
  rewrite run_chunk_cons.
  destruct (run_outcome (run_task t)) as [u|e|code] eqn:Ht.
  - assert (Hret : returns t) by (now exists u).
    destruct (run_chunk ts) as [records [|e|code]]; simpl.
    + destruct IH as [-> Hall]. split; [reflexivity | now constructor].
    + destruct IH as (before & t' & after & -> & Hall & Ht' & ->).
      exists (t :: before), t', after. repeat split; try assumption.
      now constructor.
    + destruct IH as (before & t' & after & -> & Hall & Ht' & ->).
      exists (t :: before), t', after. repeat split; try assumption.
      now constructor.
  - exists [], t, ts. repeat split; [constructor | exact Ht].
  - exists [], t, ts. repeat split; [constructor | exact Ht].
Qed.

Lemma chunksize_one n processes :
  (0 < n <= processes * 4)%nat -> chunksize n processes = 1%nat.
Proof.
  intros [Hn Hle]. unfold chunksize. destruct n as [|n]; [lia|].
  set (d := (processes * 4)%nat) in *.
  destruct (Nat.eq_dec (S n) d) as [E|E].
  - rewrite <- E. rewrite Nat.div_same, Nat.Div0.mod_same by lia. reflexivity.
  - rewrite Nat.div_small, Nat.mod_small by lia. reflexivity.
Qed.

Lemma chunks_of_one {T : Type} (l : list T) : chunks 1 l = map (fun x => [x]) l.
Proof.
  unfold chunks.
  assert (G : forall fuel (k : list T), (length k <= fuel)%nat ->
                chunks_from fuel 1 k = map (fun x => [x]) k).
  { induction fuel as [|fuel IH]; intros k Hk.
    - destruct k; [reflexivity | simpl in Hk; lia].
    - destruct k as [|x k]; [reflexivity|]. simpl. rewrite drop_0.
      f_equal. apply IH. simpl in Hk. lia. }
  now apply G.
Qed.

Lemma run_chunk_single t :
  run_chunk [t] =
  ([run_task t],
   match run_outcome (run_task t) with
   | Returned _ => ChunkDone
   | Raised e => ChunkRaised e
   | Exited code => WorkerExited code
   end).
Proof. rewrite run_chunk_cons. now destruct (run_outcome (run_task t)). Qed.

Lemma starmap_one_task_per_chunk ts :
  (length ts <= Pos.to_nat cpu_count * 4)%nat ->
  starmap ts = (map run_task ts, pool_result (map (fun t => snd (run_chunk [t])) ts)).
Proof.
  intros Hle. unfold Main.starmap. destruct ts as [|t ts]; [reflexivity|].
  rewrite chunksize_one by (simpl in *; lia). rewrite chunks_of_one.
  generalize (t :: ts). intros l. f_equal.
  - induction l as [|x l IH]; [reflexivity|].
    cbn [map concat]. rewrite IH, run_chunk_single. reflexivity.
  - f_equal. now rewrite !map_map.
Qed.

Lemma ends_without_raise ts :
  Forall (fun t => Cases.raises (run_task t) = false) ts ->
  pool_result (map (fun t => snd (run_chunk [t])) ts)
  = (if forallb (fun t => match run_outcome (run_task t) with
                          | Returned _ => true
                          | _ => false
                          end) ts
     then PoolReturned else PoolNeverReturns).
Proof.
  unfold pool_result. induction 1 as [|t ts Ht _ IH]; [reflexivity|].
  cbn [map existsb forallb omap]. rewrite run_chunk_single. cbn [snd].
  unfold Cases.raises in Ht.
  destruct (run_outcome (run_task t)) as [u|e|code]; [|discriminate|reflexivity].
  cbn [orb andb]. exact IH.
Qed.

(** X18.  With at most four portfolios per processor every task is a
    chunk of its own, and no run can take another one's away: as long as
    no run lets an exception escape, every section is run, even when some
    runs exit; [starmap] then returns exactly when all of them return,
    and never returns otherwise. *)
Theorem few_portfolios_are_all_run (p_config : config) (cl : CommandLine) (args : Args) :
  parse_args (sections p_config) cl = Some args ->
  (length p_config <= Pos.to_nat cpu_count * 4)%nat ->
  Forall (fun t => Cases.raises (run_task t) = false) (tasks p_config args) ->
  exists ending,
    main p_config cl = Some (map run_task (tasks p_config args), ending)
    /\ map run_name (map run_task (tasks p_config args)) = sections p_config
    /\ (ending = PoolReturned <-> Forall returns (tasks p_config args))
    /\ (ending = PoolReturned \/ ending = PoolNeverReturns).
Proof.
  intros Hp Hle Hraise. unfold Main.main. rewrite Hp. simpl.
  assert (Hlen : length (tasks p_config args) = length p_config).
  { rewrite <- (length_map task_name), task_names. unfold sections, keys.
    apply length_map. }
  rewrite starmap_one_task_per_chunk by lia.
  eexists. split; [reflexivity|]. split.
  { rewrite map_map. rewrite <- (task_names p_config args). now apply map_ext. }
  rewrite (ends_without_raise _ Hraise). clear Hraise Hlen Hle Hp.
  induction (tasks p_config args) as [|t ts IH]; cbn [forallb].
  - split; [split; [constructor | reflexivity] | now left].
  - destruct (run_outcome (run_task t)) as [u|e|code] eqn:Ho; cbn [andb].
    + destruct IH as [IH Hor]. split; [|exact Hor]. rewrite IH. split.
      * intros Hall. constructor; [now exists u | exact Hall].
      * intros Hall. now apply Forall_cons in Hall as [_ Hall].
    + split; [|now right]. split; [discriminate|]. intros Hall.
      apply Forall_cons in Hall as [[u Hu] _]. unfold Main.returns in Hu. congruence.
    + split; [|now right]. split; [discriminate|]. intros Hall.
      apply Forall_cons in Hall as [[u Hu] _]. unfold Main.returns in Hu. congruence.
Qed.
End PoolRuns.


Lemma tasks_carry_their_section_witness :
  In ("a", Demo.one_word_line) Demo.five_portfolios.
Proof.
  pose proof (tasks_carry_their_section Demo.five_portfolios
           {| trade := false; force := false; max_orders := VInt 5; cancel := false;
              log_dir := "logs"; mode := "mid"; portfolio := ["a"] |}
           {| task_config := Demo.one_word_line; task_name := "a";
              task_trade := false; task_force := false; task_max_orders := VInt 5;
              task_cancel := false; task_log_dir := "logs"; task_mode := "mid" |}
           (or_introl eq_refl)) as (Hin & _).
  exact Hin.
Defined.

(** Three portfolios on one processor: the first exits on its targets, the
    other two are run all the same, and [starmap] never returns. *)
Lemma few_portfolios_are_all_run_witness :
  exists ending,
    main (H := decimal_builtins) Engine.make_portfolio
         (Engine.executor_run Demo.pricing Demo.no_fee) (fun _ => Demo.venue) 1%positive
         Cases.three_portfolios Demo.no_options
    = Some (map (run_task (H := decimal_builtins) Engine.make_portfolio
                          (Engine.executor_run Demo.pricing Demo.no_fee)
                          (fun _ => Demo.venue))
                (tasks Cases.three_portfolios
                   {| trade := false; force := false; max_orders := VInt 5;
                      cancel := false; log_dir := "logs"; mode := "mid";
                      portfolio := ["a"; "b"; "c"] |}),
            ending)
    /\ ending = PoolNeverReturns.
Proof.
  destruct (few_portfolios_are_all_run (H := decimal_builtins) Engine.make_portfolio
              (Engine.executor_run Demo.pricing Demo.no_fee) (fun _ => Demo.venue)
              1%positive Cases.three_portfolios Demo.no_options
              {| trade := false; force := false; max_orders := VInt 5;
                 cancel := false; log_dir := "logs"; mode := "mid";
                 portfolio := ["a"; "b"; "c"] |}
              eq_refl) as (ending & Hmain & _ & _ & Hend).
  - simpl. lia.
  - repeat constructor.
  - exists ending. split; [exact Hmain|].
    destruct Hend as [-> | ->]; [|reflexivity].
    vm_compute in Hmain. discriminate Hmain.
Defined.
